(** * remote-mcp-server: the request shell, the mock SDK server and the tools

    A shallow embedding of the TypeScript sources

    - [src/mcp-servers/mock-sdk.ts]   ErrorCode, McpError, Server
    - [src/mcp-servers/server.ts]     createMcpServer and the three setup loops
    - [src/mcp-servers/puppeteer.ts]  createPuppeteerTools
    - [src/mcp-servers/brave-search.ts], [src/mcp-servers/supabase.ts]
    - [src/index.ts]                  SseHandler.fetch, handleSseConnection

    JavaScript values are an inductive type, [async] functions are
    computations in a monad [M] that threads the module-level variables and a
    trace of calls and carries thrown values, and the event stream of a GET
    connection is a state machine driven by the runtime's timer and by the
    abort event.  Console output is not part of the model: no [console.*]
    call of the sources can throw or change a response. *)

From Stdlib Require Import String Ascii List ZArith Lia Bool SpecFloat DecimalString.
Import ListNotations.
Local Open Scope string_scope.
Local Open Scope Z_scope.
Set Warnings "-register-all".

(** ** JavaScript values *)

(** A number is an IEEE double, given by its sign, mantissa and exponent. *)
Definition number := spec_float.

Definition number_of_Z (z : Z) : number :=
  match z with
  | Z0 => S754_zero false
  | Zpos p => S754_finite false p 0
  | Zneg p => S754_finite true p 0
  end.

(** The integer a number denotes, when it denotes one ([Number.isInteger]). *)
Definition number_to_Z (x : number) : option Z :=
  match x with
  | S754_zero _ => Some 0
  | S754_finite s m e =>
      let signed (n : Z) := if s then - n else n in
      if 0 <=? e then Some (signed (Zpos m * 2 ^ e))
      else if (Zpos m mod 2 ^ (- e)) =? 0 then Some (signed (Zpos m / 2 ^ (- e)))
      else None
  | S754_infinity _ | S754_nan => None
  end.

(** What [JSON.parse] builds, with [undefined] for what a property read can
    give besides.  A string is a sequence of code units; an object lists its
    own properties, each key once, in insertion order. *)
Inductive value : Type :=
| VUndefined
| VNull
| VBool (b : bool)
| VNum (x : number)
| VStr (s : string)
| VArr (items : list value)
| VObj (props : list (string * value)).

Fixpoint lookup (props : list (string * value)) (key : string) : value :=
  match props with
  | [] => VUndefined
  | (k, v) :: rest => if String.eqb k key then v else lookup rest key
  end.

Definition has_own (props : list (string * value)) (key : string) : bool :=
  existsb (fun kv => String.eqb (fst kv) key) props.

(** ToBoolean. *)
Definition truthy (v : value) : bool :=
  match v with
  | VUndefined | VNull => false
  | VBool b => b
  | VNum (S754_zero _) | VNum S754_nan => false
  | VNum _ => true
  | VStr s => negb (String.eqb s "")
  | VArr _ | VObj _ => true
  end.

(** [a || b]. *)
Definition js_or (a b : value) : value := if truthy a then a else b.

(** [v === 'lit']. *)
Definition strict_eq_str (v : value) (lit : string) : bool :=
  match v with
  | VStr s => String.eqb s lit
  | _ => false
  end.

Definition Z_to_string (z : Z) : string := NilZero.string_of_int (Z.to_int z).

Definition dquote : string := String (ascii_of_nat 34) EmptyString.
Definition newline : string := String (ascii_of_nat 10) EmptyString.

(** ** Thrown values and the error codes of mock-sdk.ts *)

Inductive ErrorCode : Type :=
| ParseError
| InvalidRequest
| MethodNotFound
| InvalidParams
| InternalError.

Definition ErrorCode_value (c : ErrorCode) : Z :=
  match c with
  | ParseError => -32700
  | InvalidRequest => -32600
  | MethodNotFound => -32601
  | InvalidParams => -32602
  | InternalError => -32603
  end.

(** What a [throw] or a rejected promise carries: an [McpError], another
    [Error] instance (TypeError, SyntaxError, plain Error), or a value that
    is no Error, kept with what [String(value)] gives for it. *)
Inductive thrown : Type :=
| McpError (code : ErrorCode) (message : string)
| ErrorObject (message : string)
| NonError (rendered : string).

Inductive Outcome (A : Type) : Type :=
| Return (a : A)
| Throw (e : thrown).
Arguments Return {A} a.
Arguments Throw {A} e.

(** ** What the JavaScript platform supplies

    Built-ins whose text the sources depend on and whose algorithm lives in
    the engine: they are parameters of the whole development. *)
Class Platform : Type := {
  (** Number::toString, radix 10 *)
  number_to_string : number -> string;
  (** message of the TypeError for reading property [key] of [v], which is
      null or undefined *)
  nullish_read_message : value -> string -> string;
  (** message of the TypeError for an object with no primitive value *)
  to_primitive_message : string;
  (** URLSearchParams.prototype.toString *)
  url_search_params_to_string : list (string * string) -> string;
  (** JSON.stringify(v) and JSON.stringify(v, null, 2) *)
  json_stringify : value -> string;
  json_stringify_pretty : value -> string;
  (** whether [new URL(s)] succeeds, as zod's [.url()] asks *)
  is_url : string -> bool
}.

(** One platform to run the model on: decimal integers, fixed messages, and
    stand-ins for the encoders. The theorems hold for every platform; this
    one only evaluates examples. *)
Definition sample_number_to_string (x : number) : string :=
  match number_to_Z x with
  | Some z => Z_to_string z
  | None => "NaN"
  end.

Definition sample_platform : Platform := {|
  number_to_string := sample_number_to_string;
  nullish_read_message :=
    fun v key =>
      "Cannot read properties of "
      ++ match v with VNull => "null" | _ => "undefined" end
      ++ " (reading '" ++ key ++ "')";
  to_primitive_message := "Cannot convert object to primitive value";
  url_search_params_to_string :=
    fun ps => String.concat "&" (map (fun kv => fst kv ++ "=" ++ snd kv) ps);
  json_stringify := fun _ => "{}";
  json_stringify_pretty := fun _ => "{}";
  is_url := fun s => String.prefix "http" s
|}.

(** ** The world an [async] function runs in *)

(** The properties the tool modules look up on the global [self]. *)
Record GlobalScope : Type := {
  BRAVE_API_KEY : option string;
  SUPABASE_PROJECT_REF : option string;
  SUPABASE_SERVICE_ROLE_KEY : option string
}.

(** An outbound [fetch(url, init)]. *)
Record HttpRequest : Type := {
  url : string;
  http_method : string;
  http_headers : list (string * string);
  http_body : option string
}.

(** What an upstream [fetch] resolves to, as the handlers read it:
    [response.status], [response.statusText], [await response.json()]. *)
Record UpstreamResponse : Type := {
  status : Z;
  statusText : string;
  json : Outcome value
}.

(** [response.ok]: the status is in the range 200 to 299. *)
Definition ok (r : UpstreamResponse) : bool :=
  (200 <=? status r) && (status r <=? 299).

(** The five request-schema symbols of mock-sdk.ts. *)
Inductive RequestSchema : Type :=
| ListToolsRequestSchema
| CallToolRequestSchema
| ListResourcesRequestSchema
| ListResourceTemplatesRequestSchema
| ReadResourceRequestSchema.

(** The trace: every entry into a method of the server, into a tool handler
    and into the upstream [fetch], in the order they happen. *)
Inductive Call : Type :=
| CallRegisterTool (name : string)
| CallHandleRequest (schema : RequestSchema)
| CallToolHandler (name : string)
| CallFetch (request : HttpRequest).

(** The module-level variables of brave-search.ts ([apiHeaders]) and
    supabase.ts ([SUPABASE_URL], [SUPABASE_API_KEY]), the global scope, the
    network, and the trace so far. *)
Record World : Type := {
  self : option GlobalScope;
  network : HttpRequest -> Outcome UpstreamResponse;
  apiHeaders : list (string * string);
  SUPABASE_URL : string;
  SUPABASE_API_KEY : string;
  calls : list Call
}.

Definition M (A : Type) : Type := World -> Outcome A * World.

Definition ret {A : Type} (a : A) : M A := fun w => (Return a, w).

Definition bind {A B : Type} (m : M A) (k : A -> M B) : M B :=
  fun w =>
    match m w with
    | (Return a, w') => k a w'
    | (Throw e, w') => (Throw e, w')
    end.

Definition throw {A : Type} (e : thrown) : M A := fun w => (Throw e, w).

(** [try { body } catch (error) { handler }]. *)
Definition try_catch {A : Type} (body : M A) (handler : thrown -> M A) : M A :=
  fun w =>
    match body w with
    | (Return a, w') => (Return a, w')
    | (Throw e, w') => handler e w'
    end.

(** A pure step that may throw. *)
Definition lift {A : Type} (o : Outcome A) : M A := fun w => (o, w).

Definition record (c : Call) : M unit :=
  fun w =>
    (Return tt,
     {| self := self w; network := network w; apiHeaders := apiHeaders w;
        SUPABASE_URL := SUPABASE_URL w; SUPABASE_API_KEY := SUPABASE_API_KEY w;
        calls := calls w ++ [c] |}).

Definition read {A : Type} (f : World -> A) : M A := fun w => (Return (f w), w).

Definition set_apiHeaders (h : list (string * string)) : M unit :=
  fun w =>
    (Return tt,
     {| self := self w; network := network w; apiHeaders := h;
        SUPABASE_URL := SUPABASE_URL w; SUPABASE_API_KEY := SUPABASE_API_KEY w;
        calls := calls w |}).

Definition set_supabase (u k : string) : M unit :=
  fun w =>
    (Return tt,
     {| self := self w; network := network w; apiHeaders := apiHeaders w;
        SUPABASE_URL := u; SUPABASE_API_KEY := k;
        calls := calls w |}).

Notation "x <- m ;; k" := (bind m (fun x => k))
  (at level 61, m at next level, right associativity).
Notation "m ;; k" := (bind m (fun _ => k))
  (at level 61, right associativity).

(** The global [fetch]: the call is traced and the network answers. *)
Definition upstream_fetch (request : HttpRequest) : M UpstreamResponse :=
  record (CallFetch request) ;;
  net <- read network ;;
  lift (net request).

(** [error instanceof Error ? error.message : String(error)]. *)
Definition message_or_String (error : thrown) : string :=
  match error with
  | McpError _ message => message
  | ErrorObject message => message
  | NonError rendered => rendered
  end.

(** ** types.ts: ToolResult and ToolDefinition *)

Record ContentBlock : Type := {
  type : string;
  text : string
}.

Record ToolResult : Type := {
  content : list ContentBlock;
  isError : option bool
}.

(** A zod schema, as [safeParse] uses it: the parsed output, or no output
    when the input is rejected. *)
Definition Schema (A : Type) : Type := value -> option A.

(** [handler] has the type [(args: any) => Promise<ToolResult>] in the
    source; here it takes the output type of the tool's own schema. *)
Record ToolDefinition : Type := {
  Args : Type;
  description : string;
  inputSchema : Schema Args;
  handler : Args -> M ToolResult
}.

(** A ToolResult as the JSON value it is. *)
Definition ContentBlock_value (b : ContentBlock) : value :=
  VObj [("type", VStr (type b)); ("text", VStr (text b))].

Definition ToolResult_value (r : ToolResult) : value :=
  VObj (("content", VArr (map ContentBlock_value (content r)))
        :: match isError r with
           | Some b => [("isError", VBool b)]
           | None => []
           end).

(** ** The event stream of a GET connection

    The controller of the ReadableStream, the interval timer and the abort
    listener of one connection. Times are milliseconds since
    [handleSseConnection] ran. The runtime drives the connection with two
    events: the interval's deadline is reached ([TimerDue]), and the
    request's signal dispatches [abort] to its listeners ([AbortEvent]).
    The source never reads [signal.aborted]: a signal that aborted before
    the listener was added dispatches nothing more, and such a connection
    sees no [AbortEvent]. *)

Record Timer : Type := {
  period : Z;
  deadline : Z
}.

Record Stream : Type := {
  enqueued : list (Z * string);
  closed : bool;
  interval : option Timer;
  abort_listener : bool
}.

Definition new_stream : Stream :=
  {| enqueued := []; closed := false; interval := None; abort_listener := false |}.

(** [controller.enqueue(chunk)] at time [now]: a closed stream takes
    nothing (the call throws). *)
Definition enqueue (now : Z) (chunk : string) (s : Stream) : Stream :=
  if closed s then s
  else {| enqueued := enqueued s ++ [(now, chunk)]; closed := closed s;
          interval := interval s; abort_listener := abort_listener s |}.

(** [controller.close()]. *)
Definition close (s : Stream) : Stream :=
  {| enqueued := enqueued s; closed := true;
     interval := interval s; abort_listener := abort_listener s |}.

(** [setInterval(callback, ms)] at time [now], [clearInterval(interval)],
    and the timer's move to its next deadline once it has fired. *)
Definition setInterval (now ms : Z) (s : Stream) : Stream :=
  {| enqueued := enqueued s; closed := closed s;
     interval := Some {| period := ms; deadline := now + ms |};
     abort_listener := abort_listener s |}.

Definition clearInterval (s : Stream) : Stream :=
  {| enqueued := enqueued s; closed := closed s;
     interval := None; abort_listener := abort_listener s |}.

Definition rearm (s : Stream) : Stream :=
  {| enqueued := enqueued s; closed := closed s;
     interval := option_map (fun t => {| period := period t;
                                         deadline := deadline t + period t |})
                            (interval s);
     abort_listener := abort_listener s |}.

(** [signal.addEventListener('abort', listener)]. *)
Definition addAbortListener (s : Stream) : Stream :=
  {| enqueued := enqueued s; closed := closed s;
     interval := interval s; abort_listener := true |}.

Definition connected_chunk : string :=
  "event: connected" ++ newline
  ++ "data: {" ++ dquote ++ "serverId" ++ dquote ++ ": "
  ++ dquote ++ "cloudflare-mcp-server" ++ dquote ++ "}" ++ newline ++ newline.

Definition heartbeat_chunk : string :=
  "event: heartbeat" ++ newline ++ "data: {}" ++ newline ++ newline.

(** [handleSseConnection(controller, signal)]. *)
Definition handleSseConnection (s : Stream) : Stream :=
  let s := enqueue 0 connected_chunk s in
  let s := setInterval 0 30000 s in
  addAbortListener s.

Inductive StreamEvent : Type :=
| TimerDue
| AbortEvent.

(** The interval's callback, run at the deadline. *)
Definition on_timer (s : Stream) : Stream :=
  match interval s with
  | Some t => rearm (enqueue (deadline t) heartbeat_chunk s)
  | None => s
  end.

(** The abort listener: [clearInterval(interval); controller.close()]. *)
Definition on_abort (s : Stream) : Stream :=
  if abort_listener s then close (clearInterval s) else s.

Definition deliver (s : Stream) (e : StreamEvent) : Stream :=
  match e with
  | TimerDue => on_timer s
  | AbortEvent => on_abort s
  end.

Definition run (events : list StreamEvent) (s : Stream) : Stream :=
  fold_left deliver events s.

(** An event-stream frame: [event: <name>\ndata: <data>\n\n]. *)
Definition frame (name data : string) : string :=
  "event: " ++ name ++ newline ++ "data: " ++ data ++ newline ++ newline.

(** [n] heartbeats, the k-th at 30000 * k milliseconds. *)
Definition heartbeats (n : nat) : list (Z * string) :=
  map (fun k => (30000 * Z.of_nat k, heartbeat_chunk)) (seq 1 n).

(** How many times the timer came due before the first abort event. *)
Fixpoint ticks_before_abort (events : list StreamEvent) : nat :=
  match events with
  | [] => 0%nat
  | TimerDue :: rest => S (ticks_before_abort rest)
  | AbortEvent :: _ => 0%nat
  end.

(** An open connection that has sent [n] heartbeats. *)
Definition live (n : nat) : Stream :=
  {| enqueued := (0, connected_chunk) :: heartbeats n;
     closed := false;
     interval := Some {| period := 30000; deadline := 30000 * Z.of_nat (S n) |};
     abort_listener := true |}.

(** The JSON text [{"serverId": "<id>"}]. *)
Definition serverId_json (id : string) : string :=
  "{" ++ dquote ++ "serverId" ++ dquote ++ ": " ++ dquote ++ id ++ dquote ++ "}".

(** ** Requests and responses of the Worker *)

Module Request.
Record t : Type := {
  method : string;
  url : string;
  headers : list (string * string);
  (** what [await request.json()] gives *)
  json : Outcome value
}.
End Request.

(** A response body: a text, the JSON text of a value ([JSON.stringify]),
    or an event stream. *)
Inductive Body : Type :=
| BodyText (s : string)
| BodyJson (v : value)
| BodyStream (s : Stream).

Module Response.
Record t : Type := {
  status : Z;
  headers : list (string * string);
  body : Body
}.
End Response.

(** ** The argument objects of the tools

    One record per schema of puppeteer.ts, brave-search.ts and supabase.ts:
    the output type of the schema. An optional field is an [option]; a
    number that the schema asks to be an integer is a [Z]. *)

Module Navigate.
Record Args : Type := { url : string }.
End Navigate.

Module Screenshot.
Record Args : Type := { selector : option string }.
End Screenshot.

Module GetText.
Record Args : Type := { selector : string }.
End GetText.

Module Click.
Record Args : Type := { selector : string }.
End Click.

Module TypeText.
Record Args : Type := { selector : string; text : string }.
End TypeText.

Module WebSearch.
Record Args : Type := {
  query : string;
  count : option Z;
  country : option string;
  language : option string;
  safesearch : option string
}.
End WebSearch.

Module NewsSearch.
Record Args : Type := {
  query : string;
  count : option Z;
  freshness : option string
}.
End NewsSearch.

Module ImageSearch.
Record Args : Type := {
  query : string;
  count : option Z;
  safesearch : option string
}.
End ImageSearch.

Module QueryTable.
Record Args : Type := {
  table : string;
  select : string;
  limit : option Z;
  order : option string;
  filter : option string
}.
End QueryTable.

Module InsertRows.
Record Args : Type := {
  table : string;
  rows : list (list (string * value))
}.
End InsertRows.

Module UpdateRows.
Record Args : Type := {
  table : string;
  updates : list (string * value);
  filter : string
}.
End UpdateRows.

Module DeleteRows.
Record Args : Type := {
  table : string;
  filter : string
}.
End DeleteRows.

Module ExecuteStoredProcedure.
Record Args : Type := {
  function : string;
  params : option (list (string * value))
}.
End ExecuteStoredProcedure.

(** ** The zod combinators the schemas are written with *)

Definition z_string : Schema string :=
  fun v => match v with VStr s => Some s | _ => None end.

(** [z.number()] rejects NaN. *)
Definition z_number : Schema number :=
  fun v =>
    match v with
    | VNum S754_nan => None
    | VNum x => Some x
    | _ => None
    end.

(** [z.number().int()]. *)
Definition z_number_int : Schema Z :=
  fun v =>
    match z_number v with
    | Some x => number_to_Z x
    | None => None
    end.

Definition z_check {A : Type} (p : A -> bool) (s : Schema A) : Schema A :=
  fun v =>
    match s v with
    | Some a => if p a then Some a else None
    | None => None
    end.

Definition string_length (s : string) : Z := Z.of_nat (String.length s).

(** [.min(n)] and [.length(n)] on a string, [.min(n)] and [.max(n)] on a
    number, [.min(n)] on an array. *)
Definition z_min_length (n : Z) : Schema string -> Schema string :=
  z_check (fun s => n <=? string_length s).
Definition z_length (n : Z) : Schema string -> Schema string :=
  z_check (fun s => string_length s =? n).
Definition z_min (n : Z) : Schema Z -> Schema Z := z_check (fun k => n <=? k).
Definition z_max (n : Z) : Schema Z -> Schema Z := z_check (fun k => k <=? n).
Definition z_min_items {A : Type} (n : Z) : Schema (list A) -> Schema (list A) :=
  z_check (fun l => n <=? Z.of_nat (List.length l)).

Definition z_enum (options : list string) : Schema string :=
  z_check (fun s => existsb (String.eqb s) options) z_string.

Definition z_optional {A : Type} (s : Schema A) : Schema (option A) :=
  fun v =>
    match v with
    | VUndefined => Some None
    | _ => option_map Some (s v)
    end.

Definition z_default {A : Type} (d : A) (s : Schema A) : Schema A :=
  fun v =>
    match v with
    | VUndefined => Some d
    | _ => s v
    end.

Fixpoint parse_all {A : Type} (s : Schema A) (items : list value) : option (list A) :=
  match items with
  | [] => Some []
  | x :: rest =>
      match s x, parse_all s rest with
      | Some a, Some l => Some (a :: l)
      | _, _ => None
      end
  end.

Definition z_array {A : Type} (s : Schema A) : Schema (list A) :=
  fun v => match v with VArr items => parse_all s items | _ => None end.

(** [z.record(z.any())]: any object that is neither null nor an array. *)
Definition z_record_any : Schema (list (string * value)) :=
  fun v => match v with VObj props => Some props | _ => None end.

(** [z.object({...})]: the input must be an object; each declared key is
    parsed from the property of that name (undefined when absent), and
    other keys are dropped. *)
Definition z_object (v : value) : option (list (string * value)) :=
  match v with VObj props => Some props | _ => None end.

Definition field {A : Type} (props : list (string * value)) (key : string) (s : Schema A)
  : option A :=
  s (lookup props key).

Notation "'let?' x ':=' e 'in' k" :=
  (match e with Some x => k | None => None end)
  (at level 10, x name, e at level 100, k at level 200).

(** ** Property reads and string conversion *)

Section Model.
Context {platform : Platform}.

(** [v.key], for the keys the sources read from a request body ([method],
    [id]): no built-in prototype defines them, so only an object's own
    property can answer, and null and undefined throw. *)
Definition get (v : value) (key : string) : Outcome value :=
  match v with
  | VUndefined | VNull => Throw (ErrorObject (nullish_read_message v key))
  | VObj props => Return (lookup props key)
  | VBool _ | VNum _ | VStr _ | VArr _ => Return VUndefined
  end.

(** ToString, as a template literal applies it. An array joins its elements
    with commas, null and undefined elements as the empty string. A parsed
    object has no callable [toString] of its own: an own property of that
    name hides Object.prototype.toString and the conversion throws. *)
Fixpoint ToString (v : value) : Outcome string :=
  match v with
  | VUndefined => Return "undefined"
  | VNull => Return "null"
  | VBool true => Return "true"
  | VBool false => Return "false"
  | VNum x => Return (number_to_string x)
  | VStr s => Return s
  | VArr items =>
      (fix join (first : bool) (l : list value) : Outcome string :=
         match l with
         | [] => Return ""
         | x :: rest =>
             let piece :=
               match x with
               | VUndefined | VNull => Return ""
               | _ => ToString x
               end in
             match piece with
             | Throw e => Throw e
             | Return s =>
                 match join false rest with
                 | Throw e => Throw e
                 | Return t => Return ((if first then "" else ",") ++ s ++ t)
                 end
             end
         end) true items
  | VObj props =>
      if has_own props "toString" then Throw (ErrorObject to_primitive_message)
      else Return "[object Object]"
  end.

(** ** mock-sdk.ts: Server *)

Record Server : Type := {
  serverInfo : string * string;
  capabilities : value * value
}.

(** [registerTool]: the mock logs the name and keeps nothing. *)
Definition registerTool (this : Server) (name : string) (description : string)
  {A : Type} (handler : A -> M ToolResult) (inputSchema : Schema A) : M unit :=
  record (CallRegisterTool name).

(** [handleRequest]: the mock looks at neither the schema nor the method. *)
Definition handleRequest (this : Server) (schema : RequestSchema) (requestBody : value)
  : M value :=
  record (CallHandleRequest schema) ;;
  id <- lift (get requestBody "id") ;;
  ret (VObj [("jsonrpc", VStr "2.0"); ("id", js_or id VNull); ("result", VObj [])]).

(** ** puppeteer.ts *)

(** [.url(message)]. *)
Definition z_url : Schema string -> Schema string := z_check is_url.

Definition NavigateSchema : Schema Navigate.Args :=
  fun v =>
    let? props := z_object v in
    let? url := field props "url" (z_url z_string) in
    Some {| Navigate.url := url |}.

Definition ScreenshotSchema : Schema Screenshot.Args :=
  fun v =>
    let? props := z_object v in
    let? selector := field props "selector" (z_optional z_string) in
    Some {| Screenshot.selector := selector |}.

Definition GetTextSchema : Schema GetText.Args :=
  fun v =>
    let? props := z_object v in
    let? selector := field props "selector" z_string in
    Some {| GetText.selector := selector |}.

Definition ClickSchema : Schema Click.Args :=
  fun v =>
    let? props := z_object v in
    let? selector := field props "selector" z_string in
    Some {| Click.selector := selector |}.

Definition TypeSchema : Schema TypeText.Args :=
  fun v =>
    let? props := z_object v in
    let? selector := field props "selector" z_string in
    let? text := field props "text" z_string in
    Some {| TypeText.selector := selector; TypeText.text := text |}.

(** [s || fallback] for an optional string: undefined and the empty string
    are falsy. *)
Definition or_string (s : option string) (fallback : string) : string :=
  match s with
  | Some t => if String.eqb t "" then fallback else t
  | None => fallback
  end.

Definition puppeteer_navigate_handler (args : Navigate.Args) : M ToolResult :=
  record (CallToolHandler "puppeteer_navigate") ;;
  ret {| content := [ {| type := "text";
                         text := "Successfully navigated to " ++ Navigate.url args |} ];
         isError := None |}.

Definition puppeteer_screenshot_handler (args : Screenshot.Args) : M ToolResult :=
  record (CallToolHandler "puppeteer_screenshot") ;;
  let selector := or_string (Screenshot.selector args) "body" in
  ret {| content := [ {| type := "text";
                         text := "Screenshot taken of selector: " ++ selector |} ];
         isError := None |}.

Definition puppeteer_get_text_handler (args : GetText.Args) : M ToolResult :=
  record (CallToolHandler "puppeteer_get_text") ;;
  ret {| content := [ {| type := "text";
                         text := "Text content from " ++ GetText.selector args
                                 ++ ": [Simulated content for demonstration]" |} ];
         isError := None |}.

Definition puppeteer_click_handler (args : Click.Args) : M ToolResult :=
  record (CallToolHandler "puppeteer_click") ;;
  ret {| content := [ {| type := "text";
                         text := "Clicked on element with selector: "
                                 ++ Click.selector args |} ];
         isError := None |}.

Definition puppeteer_type_handler (args : TypeText.Args) : M ToolResult :=
  record (CallToolHandler "puppeteer_type") ;;
  ret {| content := [ {| type := "text";
                         text := "Typed " ++ dquote ++ TypeText.text args ++ dquote
                                 ++ " into element with selector: "
                                 ++ TypeText.selector args |} ];
         isError := None |}.

Definition createPuppeteerTools : list (string * ToolDefinition) :=
  [ ("puppeteer_navigate",
     {| description := "Navigate to a URL in a browser";
        inputSchema := NavigateSchema;
        handler := puppeteer_navigate_handler |});
    ("puppeteer_screenshot",
     {| description := "Take a screenshot of the current page or a specific element";
        inputSchema := ScreenshotSchema;
        handler := puppeteer_screenshot_handler |});
    ("puppeteer_get_text",
     {| description := "Get text content from an element on the page";
        inputSchema := GetTextSchema;
        handler := puppeteer_get_text_handler |});
    ("puppeteer_click",
     {| description := "Click on an element on the page";
        inputSchema := ClickSchema;
        handler := puppeteer_click_handler |});
    ("puppeteer_type",
     {| description := "Type text into an input field";
        inputSchema := TypeSchema;
        handler := puppeteer_type_handler |}) ].

(** ** brave-search.ts *)

(** [apiHeaders] as the module declares it. *)
Definition apiHeaders_initial : list (string * string) :=
  [ ("Accept", "application/json");
    ("Content-Type", "application/json");
    ("X-Subscription-Token", "") ].

Definition BRAVE_SEARCH_API : string := "https://api.search.brave.com/res/v1".

(** [object[key] = v] on an object of strings. *)
Fixpoint assign (object : list (string * string)) (key v : string)
  : list (string * string) :=
  match object with
  | [] => [(key, v)]
  | (k, old) :: rest =>
      if String.eqb k key then (k, v) :: rest else (k, old) :: assign rest key v
  end.

Definition WebSearchSchema : Schema WebSearch.Args :=
  fun v =>
    let? props := z_object v in
    let? query := field props "query" (z_min_length 1 z_string) in
    let? count := field props "count" (z_optional (z_max 20 (z_min 1 z_number_int))) in
    let? country := field props "country" (z_optional (z_length 2 z_string)) in
    let? language := field props "language" (z_optional z_string) in
    let? safesearch :=
      field props "safesearch" (z_optional (z_enum ["strict"; "moderate"; "off"])) in
    Some {| WebSearch.query := query; WebSearch.count := count;
            WebSearch.country := country; WebSearch.language := language;
            WebSearch.safesearch := safesearch |}.

Definition NewsSearchSchema : Schema NewsSearch.Args :=
  fun v =>
    let? props := z_object v in
    let? query := field props "query" (z_min_length 1 z_string) in
    let? count := field props "count" (z_optional (z_max 20 (z_min 1 z_number_int))) in
    let? freshness :=
      field props "freshness" (z_optional (z_enum ["day"; "week"; "month"; "any"])) in
    Some {| NewsSearch.query := query; NewsSearch.count := count;
            NewsSearch.freshness := freshness |}.

Definition ImageSearchSchema : Schema ImageSearch.Args :=
  fun v =>
    let? props := z_object v in
    let? query := field props "query" (z_min_length 1 z_string) in
    let? count := field props "count" (z_optional (z_max 20 (z_min 1 z_number_int))) in
    let? safesearch :=
      field props "safesearch" (z_optional (z_enum ["strict"; "moderate"; "off"])) in
    Some {| ImageSearch.query := query; ImageSearch.count := count;
            ImageSearch.safesearch := safesearch |}.

(** [if (v) searchParams.append(key, v)]. *)
Definition append_if (searchParams : list (string * string)) (key : string)
  (v : option string) : list (string * string) :=
  match v with
  | Some s => if String.eqb s "" then searchParams else searchParams ++ [(key, s)]
  | None => searchParams
  end.

(** [`${response.status} ${response.statusText}`]. *)
Definition status_line (response : UpstreamResponse) : string :=
  Z_to_string (status response) ++ " " ++ statusText response.

(** The request [brave_web_search] sends: the query string, then the [fetch] init. *)
Definition brave_web_search_request (args : WebSearch.Args) (headers : list (string * string))
  : HttpRequest :=
  let searchParams :=
    [ ("q", WebSearch.query args);
      ("count", or_string (option_map Z_to_string (WebSearch.count args)) "10") ] in
  let searchParams := append_if searchParams "country" (WebSearch.country args) in
  let searchParams := append_if searchParams "language" (WebSearch.language args) in
  let searchParams := append_if searchParams "safesearch" (WebSearch.safesearch args) in
  let url := BRAVE_SEARCH_API ++ "/web/search?"
             ++ url_search_params_to_string searchParams in
  {| url := url; http_method := "GET"; http_headers := headers; http_body := None |}.

Definition brave_web_search_handler (args : WebSearch.Args) : M ToolResult :=
  record (CallToolHandler "brave_web_search") ;;
  try_catch
    (headers <- read apiHeaders ;;
     response <- upstream_fetch (brave_web_search_request args headers) ;;
     if negb (ok response)
     then throw (ErrorObject ("Brave Search API error: " ++ status_line response))
     else
       data <- lift (json response) ;;
       ret {| content := [ {| type := "text"; text := json_stringify_pretty data |} ];
              isError := None |})
    (fun error =>
       ret {| content := [ {| type := "text";
                              text := "Error in brave_web_search: "
                                      ++ message_or_String error |} ];
              isError := Some true |}).

(** The request [brave_news_search] sends: the query string, then the [fetch] init. *)
Definition brave_news_search_request (args : NewsSearch.Args) (headers : list (string * string))
  : HttpRequest :=
  let searchParams :=
    [ ("q", NewsSearch.query args);
      ("count", or_string (option_map Z_to_string (NewsSearch.count args)) "10");
      ("search_type", "news") ] in
  let searchParams := append_if searchParams "freshness" (NewsSearch.freshness args) in
  let url := BRAVE_SEARCH_API ++ "/news/search?"
             ++ url_search_params_to_string searchParams in
  {| url := url; http_method := "GET"; http_headers := headers; http_body := None |}.

Definition brave_news_search_handler (args : NewsSearch.Args) : M ToolResult :=
  record (CallToolHandler "brave_news_search") ;;
  try_catch
    (headers <- read apiHeaders ;;
     response <- upstream_fetch (brave_news_search_request args headers) ;;
     if negb (ok response)
     then throw (ErrorObject ("Brave Search API error: " ++ status_line response))
     else
       data <- lift (json response) ;;
       ret {| content := [ {| type := "text"; text := json_stringify_pretty data |} ];
              isError := None |})
    (fun error =>
       ret {| content := [ {| type := "text";
                              text := "Error in brave_news_search: "
                                      ++ message_or_String error |} ];
              isError := Some true |}).

(** The request [brave_image_search] sends: the query string, then the [fetch] init. *)
Definition brave_image_search_request (args : ImageSearch.Args) (headers : list (string * string))
  : HttpRequest :=
  let searchParams :=
    [ ("q", ImageSearch.query args);
      ("count", or_string (option_map Z_to_string (ImageSearch.count args)) "10");
      ("search_type", "images") ] in
  let searchParams := append_if searchParams "safesearch" (ImageSearch.safesearch args) in
  let url := BRAVE_SEARCH_API ++ "/images/search?"
             ++ url_search_params_to_string searchParams in
  {| url := url; http_method := "GET"; http_headers := headers; http_body := None |}.

Definition brave_image_search_handler (args : ImageSearch.Args) : M ToolResult :=
  record (CallToolHandler "brave_image_search") ;;
  try_catch
    (headers <- read apiHeaders ;;
     response <- upstream_fetch (brave_image_search_request args headers) ;;
     if negb (ok response)
     then throw (ErrorObject ("Brave Search API error: " ++ status_line response))
     else
       data <- lift (json response) ;;
       ret {| content := [ {| type := "text"; text := json_stringify_pretty data |} ];
              isError := None |})
    (fun error =>
       ret {| content := [ {| type := "text";
                              text := "Error in brave_image_search: "
                                      ++ message_or_String error |} ];
              isError := Some true |}).

Definition brave_tools : list (string * ToolDefinition) :=
  [ ("brave_web_search",
     {| description := "Search the web using Brave Search";
        inputSchema := WebSearchSchema;
        handler := brave_web_search_handler |});
    ("brave_news_search",
     {| description := "Search for news articles using Brave Search";
        inputSchema := NewsSearchSchema;
        handler := brave_news_search_handler |});
    ("brave_image_search",
     {| description := "Search for images using Brave Search";
        inputSchema := ImageSearchSchema;
        handler := brave_image_search_handler |}) ].

(** The subscription token is copied from the global scope when it is
    there; then the table is returned. *)
Definition createBraveSearchTools : M (list (string * ToolDefinition)) :=
  scope <- read self ;;
  match scope with
  | Some g =>
      match BRAVE_API_KEY g with
      | Some key =>
          headers <- read apiHeaders ;;
          set_apiHeaders (assign headers "X-Subscription-Token" key)
      | None => ret tt
      end
  | None => ret tt
  end ;;
  ret brave_tools.

(** ** supabase.ts *)

Definition QueryTableSchema : Schema QueryTable.Args :=
  fun v =>
    let? props := z_object v in
    let? table := field props "table" (z_min_length 1 z_string) in
    let? select := field props "select" (z_default "*" z_string) in
    let? limit := field props "limit" (z_optional (z_max 1000 (z_min 1 z_number_int))) in
    let? order := field props "order" (z_optional z_string) in
    let? filter := field props "filter" (z_optional z_string) in
    Some {| QueryTable.table := table; QueryTable.select := select;
            QueryTable.limit := limit; QueryTable.order := order;
            QueryTable.filter := filter |}.

Definition InsertRowsSchema : Schema InsertRows.Args :=
  fun v =>
    let? props := z_object v in
    let? table := field props "table" (z_min_length 1 z_string) in
    let? rows := field props "rows" (z_min_items 1 (z_array z_record_any)) in
    Some {| InsertRows.table := table; InsertRows.rows := rows |}.

Definition UpdateRowsSchema : Schema UpdateRows.Args :=
  fun v =>
    let? props := z_object v in
    let? table := field props "table" (z_min_length 1 z_string) in
    let? updates := field props "updates" z_record_any in
    let? filter := field props "filter" (z_min_length 1 z_string) in
    Some {| UpdateRows.table := table; UpdateRows.updates := updates;
            UpdateRows.filter := filter |}.

Definition DeleteRowsSchema : Schema DeleteRows.Args :=
  fun v =>
    let? props := z_object v in
    let? table := field props "table" (z_min_length 1 z_string) in
    let? filter := field props "filter" (z_min_length 1 z_string) in
    Some {| DeleteRows.table := table; DeleteRows.filter := filter |}.

Definition ExecuteStoredProcedureSchema : Schema ExecuteStoredProcedure.Args :=
  fun v =>
    let? props := z_object v in
    let? function := field props "function" (z_min_length 1 z_string) in
    let? params := field props "params" (z_optional z_record_any) in
    Some {| ExecuteStoredProcedure.function := function;
            ExecuteStoredProcedure.params := params |}.

(** [if (n) url += `${prefix}${n}`] for an optional integer: undefined and
    0 are falsy. *)
Definition add_if_number (url prefix : string) (n : option Z) : string :=
  match n with
  | Some k => if k =? 0 then url else url ++ prefix ++ Z_to_string k
  | None => url
  end.

(** [if (s) url += `${prefix}${s}`] for an optional string. *)
Definition add_if_string (url prefix : string) (s : option string) : string :=
  match s with
  | Some t => if String.eqb t "" then url else url ++ prefix ++ t
  | None => url
  end.

Definition supabase_query_table_handler (args : QueryTable.Args) : M ToolResult :=
  record (CallToolHandler "supabase_query_table") ;;
  try_catch
    (base <- read SUPABASE_URL ;;
     key <- read SUPABASE_API_KEY ;;
     let url := add_if_string
                  (add_if_string
                     (add_if_number
                        (base ++ "/rest/v1/" ++ QueryTable.table args
                              ++ "?select=" ++ QueryTable.select args)
                        "&limit=" (QueryTable.limit args))
                     "&order=" (QueryTable.order args))
                  "&" (QueryTable.filter args) in
     response <- upstream_fetch
                   {| url := url;
                      http_method := "GET";
                      http_headers :=
                   [ ("apikey", key);
                     ("Authorization", "Bearer " ++ key);
                     ("Content-Type", "application/json") ];
                      http_body := None |} ;;
     if negb (ok response)
     then throw (ErrorObject ("Supabase API error: " ++ status_line response))
     else
       data <- lift (json response) ;;
       ret {| content := [ {| type := "text"; text := json_stringify_pretty data |} ];
              isError := None |})
    (fun error =>
       ret {| content := [ {| type := "text";
                              text := "Error in supabase_query_table: "
                                      ++ message_or_String error |} ];
              isError := Some true |}).

Definition supabase_insert_rows_handler (args : InsertRows.Args) : M ToolResult :=
  record (CallToolHandler "supabase_insert_rows") ;;
  try_catch
    (base <- read SUPABASE_URL ;;
     key <- read SUPABASE_API_KEY ;;
     let url := base ++ "/rest/v1/" ++ InsertRows.table args in
     response <- upstream_fetch
                   {| url := url;
                      http_method := "POST";
                      http_headers :=
                   [ ("apikey", key);
                     ("Authorization", "Bearer " ++ key);
                     ("Content-Type", "application/json");
                     ("Prefer", "return=representation") ];
                      http_body := Some (json_stringify (VArr (map VObj (InsertRows.rows args)))) |} ;;
     if negb (ok response)
     then throw (ErrorObject ("Supabase API error: " ++ status_line response))
     else
       data <- lift (json response) ;;
       ret {| content := [ {| type := "text"; text := json_stringify_pretty data |} ];
              isError := None |})
    (fun error =>
       ret {| content := [ {| type := "text";
                              text := "Error in supabase_insert_rows: "
                                      ++ message_or_String error |} ];
              isError := Some true |}).

Definition supabase_update_rows_handler (args : UpdateRows.Args) : M ToolResult :=
  record (CallToolHandler "supabase_update_rows") ;;
  try_catch
    (base <- read SUPABASE_URL ;;
     key <- read SUPABASE_API_KEY ;;
     let url := base ++ "/rest/v1/" ++ UpdateRows.table args ++ "?" ++ UpdateRows.filter args in
     response <- upstream_fetch
                   {| url := url;
                      http_method := "PATCH";
                      http_headers :=
                   [ ("apikey", key);
                     ("Authorization", "Bearer " ++ key);
                     ("Content-Type", "application/json");
                     ("Prefer", "return=representation") ];
                      http_body := Some (json_stringify (VObj (UpdateRows.updates args))) |} ;;
     if negb (ok response)
     then throw (ErrorObject ("Supabase API error: " ++ status_line response))
     else
       data <- lift (json response) ;;
       ret {| content := [ {| type := "text"; text := json_stringify_pretty data |} ];
              isError := None |})
    (fun error =>
       ret {| content := [ {| type := "text";
                              text := "Error in supabase_update_rows: "
                                      ++ message_or_String error |} ];
              isError := Some true |}).

Definition supabase_delete_rows_handler (args : DeleteRows.Args) : M ToolResult :=
  record (CallToolHandler "supabase_delete_rows") ;;
  try_catch
    (base <- read SUPABASE_URL ;;
     key <- read SUPABASE_API_KEY ;;
     let url := base ++ "/rest/v1/" ++ DeleteRows.table args ++ "?" ++ DeleteRows.filter args in
     response <- upstream_fetch
                   {| url := url;
                      http_method := "DELETE";
                      http_headers :=
                   [ ("apikey", key);
                     ("Authorization", "Bearer " ++ key);
                     ("Content-Type", "application/json");
                     ("Prefer", "return=representation") ];
                      http_body := None |} ;;
     if negb (ok response)
     then throw (ErrorObject ("Supabase API error: " ++ status_line response))
     else
       data <- lift (json response) ;;
       ret {| content := [ {| type := "text"; text := json_stringify_pretty data |} ];
              isError := None |})
    (fun error =>
       ret {| content := [ {| type := "text";
                              text := "Error in supabase_delete_rows: "
                                      ++ message_or_String error |} ];
              isError := Some true |}).

Definition supabase_execute_function_handler (args : ExecuteStoredProcedure.Args) : M ToolResult :=
  record (CallToolHandler "supabase_execute_function") ;;
  try_catch
    (base <- read SUPABASE_URL ;;
     key <- read SUPABASE_API_KEY ;;
     let url := base ++ "/rest/v1/rpc/" ++ ExecuteStoredProcedure.function args in
     response <- upstream_fetch
                   {| url := url;
                      http_method := "POST";
                      http_headers :=
                   [ ("apikey", key);
                     ("Authorization", "Bearer " ++ key);
                     ("Content-Type", "application/json") ];
                      http_body := option_map (fun params => json_stringify (VObj params))
                                   (ExecuteStoredProcedure.params args) |} ;;
     if negb (ok response)
     then throw (ErrorObject ("Supabase API error: " ++ status_line response))
     else
       data <- lift (json response) ;;
       ret {| content := [ {| type := "text"; text := json_stringify_pretty data |} ];
              isError := None |})
    (fun error =>
       ret {| content := [ {| type := "text";
                              text := "Error in supabase_execute_function: "
                                      ++ message_or_String error |} ];
              isError := Some true |}).

Definition supabase_tools : list (string * ToolDefinition) :=
  [ ("supabase_query_table",
     {| description := "Query a table in Supabase database";
        inputSchema := QueryTableSchema;
        handler := supabase_query_table_handler |});
    ("supabase_insert_rows",
     {| description := "Insert rows into a Supabase table";
        inputSchema := InsertRowsSchema;
        handler := supabase_insert_rows_handler |});
    ("supabase_update_rows",
     {| description := "Update rows in a Supabase table";
        inputSchema := UpdateRowsSchema;
        handler := supabase_update_rows_handler |});
    ("supabase_delete_rows",
     {| description := "Delete rows from a Supabase table";
        inputSchema := DeleteRowsSchema;
        handler := supabase_delete_rows_handler |});
    ("supabase_execute_function",
     {| description := "Execute a stored procedure in Supabase database";
        inputSchema := ExecuteStoredProcedureSchema;
        handler := supabase_execute_function_handler |}) ].

(** The project URL and key are set from the global scope when both are
    there (otherwise a warning is logged); then the table is returned. *)
Definition createSupabaseTools : M (list (string * ToolDefinition)) :=
  scope <- read self ;;
  match scope with
  | Some env =>
      match SUPABASE_PROJECT_REF env, SUPABASE_SERVICE_ROLE_KEY env with
      | Some ref, Some key => set_supabase ("https://" ++ ref ++ ".supabase.co") key
      | _, _ => ret tt
      end
  | None => ret tt
  end ;;
  ret supabase_tools.

(** ** server.ts *)

Fixpoint for_each {A : Type} (l : list A) (body : A -> M unit) : M unit :=
  match l with
  | [] => ret tt
  | x :: rest => body x ;; for_each rest body
  end.

Definition setupPuppeteerTools (server : Server) : M unit :=
  try_catch
    (let puppeteerTools := createPuppeteerTools in
     for_each puppeteerTools
       (fun '(name, toolDef) =>
          registerTool server name (description toolDef) (handler toolDef)
                       (inputSchema toolDef)))
    (fun error => ret tt).

Definition setupBraveSearchTools (server : Server) : M unit :=
  try_catch
    (braveSearchTools <- createBraveSearchTools ;;
     for_each braveSearchTools
       (fun '(name, toolDef) =>
          registerTool server name (description toolDef) (handler toolDef)
                       (inputSchema toolDef)))
    (fun error => ret tt).

Definition setupSupabaseTools (server : Server) : M unit :=
  try_catch
    (supabaseTools <- createSupabaseTools ;;
     for_each supabaseTools
       (fun '(name, toolDef) =>
          registerTool server name (description toolDef) (handler toolDef)
                       (inputSchema toolDef)))
    (fun error => ret tt).

Definition createMcpServer : M Server :=
  let server := {| serverInfo := ("cloudflare-mcp-server", "1.0.0");
                   capabilities := (VObj [], VObj []) |} in
  setupPuppeteerTools server ;;
  setupBraveSearchTools server ;;
  setupSupabaseTools server ;;
  ret server.

(** ** index.ts: SseHandler *)

Record SseHandler : Type := {
  mcpServer : Server
}.

(** The constructor. *)
Definition new_SseHandler : M SseHandler :=
  server <- createMcpServer ;;
  ret {| mcpServer := server |}.

Definition json_headers : list (string * string) :=
  [ ("Content-Type", "application/json") ].

(** [SseHandler.fetch]. The authorization check is commented out in the
    source: [isLocalDev], [authHeader] and [expectedToken] are computed and
    logged only, so neither the URL, the headers nor [env] decides
    anything. *)
Definition fetch (this : SseHandler) (request : Request.t) (env : value)
  : M Response.t :=
  if String.eqb (Request.method request) "GET" then
    ret {| Response.status := 200;
           Response.headers := [ ("Content-Type", "text/event-stream");
                                 ("Cache-Control", "no-cache");
                                 ("Connection", "keep-alive") ];
           Response.body := BodyStream (handleSseConnection new_stream) |}
  else if String.eqb (Request.method request) "POST" then
    try_catch
      (requestBody <- lift (Request.json request) ;;
       method <- lift (get requestBody "method") ;;
       responseBody <-
         (if strict_eq_str method "list_tools" then
            handleRequest (mcpServer this) ListToolsRequestSchema requestBody
          else if strict_eq_str method "call_tool" then
            handleRequest (mcpServer this) CallToolRequestSchema requestBody
          else if strict_eq_str method "list_resources" then
            handleRequest (mcpServer this) ListResourcesRequestSchema requestBody
          else if strict_eq_str method "list_resource_templates" then
            handleRequest (mcpServer this) ListResourceTemplatesRequestSchema requestBody
          else if strict_eq_str method "read_resource" then
            handleRequest (mcpServer this) ReadResourceRequestSchema requestBody
          else
            name <- lift (ToString method) ;;
            throw (McpError MethodNotFound ("Unknown method: " ++ name))) ;;
       ret {| Response.status := 200;
              Response.headers := json_headers;
              Response.body := BodyJson responseBody |})
      (fun error =>
         let errorResponse :=
           VObj [ ("jsonrpc", VStr "2.0");
                  ("error",
                   VObj [ ("code",
                           VNum (number_of_Z
                                   match error with
                                   | McpError code _ => ErrorCode_value code
                                   | _ => ErrorCode_value InternalError
                                   end));
                          ("message",
                           VStr match error with
                                | McpError _ message => message
                                | ErrorObject message => message
                                | NonError _ => "Unknown error"
                                end) ]);
                  ("id", VNull) ] in
         ret {| Response.status := 500;
                Response.headers := json_headers;
                Response.body := BodyJson errorResponse |})
  else
    ret {| Response.status := 405;
           Response.headers := [];
           Response.body := BodyText "Method not allowed" |}.

(** ** Vocabulary of the properties *)

(** Every tool [createMcpServer] passes to [registerTool], in order. *)
Definition all_tools : list (string * ToolDefinition) :=
  createPuppeteerTools ++ brave_tools ++ supabase_tools.

Definition find_tool (name : string) : option ToolDefinition :=
  option_map snd (find (fun entry => String.eqb (fst entry) name) all_tools).

(** The calls a computation adds to the trace when run from [w]. *)
Definition trace_of {A : Type} (m : M A) (w : World) : list Call :=
  skipn (List.length (calls w)) (calls (snd (m w))).

Definition is_handler_call (name : string) (c : Call) : bool :=
  match c with
  | CallToolHandler n => String.eqb n name
  | _ => false
  end.

Definition is_any_handler_call (c : Call) : bool :=
  match c with
  | CallToolHandler _ => true
  | _ => false
  end.

(** How often the handler of tool [name] was entered. *)
Definition handler_calls (name : string) (trace : list Call) : nat :=
  List.length (filter (is_handler_call name) trace).

(** The method names [fetch] routes to [handleRequest], each with the schema
    symbol it passes. *)
Definition routed : list (string * RequestSchema) :=
  [ ("list_tools", ListToolsRequestSchema);
    ("call_tool", CallToolRequestSchema);
    ("list_resources", ListResourcesRequestSchema);
    ("list_resource_templates", ListResourceTemplatesRequestSchema);
    ("read_resource", ReadResourceRequestSchema) ].

(** [{ jsonrpc: '2.0', id, result }] and [{ jsonrpc: '2.0', error, id: null }]. *)
Definition success_body (id result : value) : value :=
  VObj [ ("jsonrpc", VStr "2.0"); ("id", id); ("result", result) ].

Definition error_body (code : ErrorCode) (message : string) : value :=
  VObj [ ("jsonrpc", VStr "2.0");
         ("error", VObj [ ("code", VNum (number_of_Z (ErrorCode_value code)));
                          ("message", VStr message) ]);
         ("id", VNull) ].

Definition json_response (status : Z) (v : value) : Response.t :=
  {| Response.status := status;
     Response.headers := json_headers;
     Response.body := BodyJson v |}.

(** [s] contains [part]. *)
Definition includes (s part : string) : Prop :=
  exists before after, s = before ++ part ++ after.

(** A POST whose body parses to the object with properties [props]. *)
Definition is_post (request : Request.t) (props : list (string * value)) : Prop :=
  Request.method request = "POST" /\ Request.json request = Return (VObj props).

(** The [params] of a call_tool request for tool [name]. *)
Definition call_tool_params (name : string) (arguments : value) : value :=
  VObj [ ("name", VStr name); ("arguments", arguments) ].

(** The upstream call throws, or resolves to a response whose status is no
    success. *)
Definition upstream_fails (o : Outcome UpstreamResponse) : Prop :=
  match o with
  | Throw _ => True
  | Return response => ok response = false
  end.

(** The module variables and the environment are the same in both worlds:
    only the trace may differ. *)
Definition same_module_state (w w' : World) : Prop :=
  self w' = self w
  /\ network w' = network w
  /\ apiHeaders w' = apiHeaders w
  /\ SUPABASE_URL w' = SUPABASE_URL w
  /\ SUPABASE_API_KEY w' = SUPABASE_API_KEY w.

(** [headers[name]] on an object of strings. *)
Fixpoint header (headers : list (string * string)) (name : string) : option string :=
  match headers with
  | [] => None
  | (k, v) :: rest => if String.eqb k name then Some v else header rest name
  end.

(** The two envelopes a network tool builds. *)
Definition failure_result (name message : string) : ToolResult :=
  {| content := [ {| type := "text"; text := "Error in " ++ name ++ ": " ++ message |} ];
     isError := Some true |}.

Definition success_result (data : value) : ToolResult :=
  {| content := [ {| type := "text"; text := json_stringify_pretty data |} ];
     isError := None |}.

Definition is_abort (e : StreamEvent) : bool :=
  match e with
  | AbortEvent => true
  | TimerDue => false
  end.

(** A connection that sent [n] heartbeats and then saw the abort event. *)
Definition stopped (n : nat) : Stream := close (clearInterval (live n)).

(** ** A connection together with its request's signal

    [signal_aborted] is [request.signal.aborted]. [fetch] hands the signal
    to [handleSseConnection], which adds its listener and never reads
    [signal.aborted]: the stream starts the same way whether or not the
    signal has aborted already. The runtime lets an interval elapse
    ([IntervalElapses]) or aborts the signal ([SignalAborts], the client
    going away); a signal aborts once, so aborting one that is aborted
    dispatches no event. *)
Record Connection : Type := {
  stream : Stream;
  signal_aborted : bool
}.

Definition open_connection (aborted_already : bool) : Connection :=
  {| stream := handleSseConnection new_stream; signal_aborted := aborted_already |}.

Inductive RuntimeEvent : Type :=
| IntervalElapses
| SignalAborts.

Definition step (c : Connection) (e : RuntimeEvent) : Connection :=
  match e with
  | IntervalElapses =>
      {| stream := deliver (stream c) TimerDue; signal_aborted := signal_aborted c |}
  | SignalAborts =>
      if signal_aborted c then c
      else {| stream := deliver (stream c) AbortEvent; signal_aborted := true |}
  end.

Definition run_connection (events : list RuntimeEvent) (c : Connection) : Connection :=
  fold_left step events c.

(** How many intervals elapse in [events], and how many before the first
    abort of the signal. *)
Fixpoint elapsed (events : list RuntimeEvent) : nat :=
  match events with
  | [] => 0%nat
  | IntervalElapses :: rest => S (elapsed rest)
  | SignalAborts :: rest => elapsed rest
  end.

Fixpoint elapsed_before_abort (events : list RuntimeEvent) : nat :=
  match events with
  | [] => 0%nat
  | IntervalElapses :: rest => S (elapsed_before_abort rest)
  | SignalAborts :: _ => 0%nat
  end.

Definition is_signal_abort (e : RuntimeEvent) : bool :=
  match e with
  | SignalAborts => true
  | IntervalElapses => false
  end.

End Model.

(** ** Concrete inputs *)

(** The module variables as the modules initialise them. *)
Definition initial_world (scope : option GlobalScope)
  (net : HttpRequest -> Outcome UpstreamResponse) : World :=
  {| self := scope; network := net; apiHeaders := apiHeaders_initial;
     SUPABASE_URL := ""; SUPABASE_API_KEY := ""; calls := [] |}.

Definition unavailable : UpstreamResponse :=
  {| status := 503; statusText := "Service Unavailable"; json := Return VNull |}.

(** A world with no global configuration whose upstream answers 503. *)
Definition sample_world : World :=
  initial_world None (fun _ => Return unavailable).

Definition sample_handler : SseHandler :=
  {| mcpServer := {| serverInfo := ("cloudflare-mcp-server", "1.0.0");
                     capabilities := (VObj [], VObj []) |} |}.

Definition sample_request (method : string) (body : value) : Request.t :=
  {| Request.method := method;
     Request.url := "https://example.com/sse";
     Request.headers := [];
     Request.json := Return body |}.

Definition zero : value := VNum (S754_zero false).

(** [{method, params: {name, arguments}}], with an id when one is given. *)
Definition call_tool_body (id : option value) (name : string) (arguments : value)
  : list (string * value) :=
  [ ("method", VStr "call_tool"); ("params", call_tool_params name arguments) ]
  ++ match id with
     | Some v => [("id", v)]
     | None => []
     end.

Definition click_arguments : value := VObj [ ("selector", VStr "#go") ].

Definition search_arguments : value := VObj [ ("query", VStr "cats") ].

Definition search_args : WebSearch.Args :=
  {| WebSearch.query := "cats"; WebSearch.count := None; WebSearch.country := None;
     WebSearch.language := None; WebSearch.safesearch := None |}.

(** A global scope with all three variables, and one with a Supabase
    project but no service-role key. *)
Definition configured_scope : GlobalScope :=
  {| BRAVE_API_KEY := Some "brave-key";
     SUPABASE_PROJECT_REF := Some "abcd";
     SUPABASE_SERVICE_ROLE_KEY := Some "service-key" |}.

Definition configured_world : World :=
  initial_world (Some configured_scope) (fun _ => Return unavailable).

Definition half_configured_scope : GlobalScope :=
  {| BRAVE_API_KEY := None;
     SUPABASE_PROJECT_REF := Some "abcd";
     SUPABASE_SERVICE_ROLE_KEY := None |}.

Definition half_configured_world : World :=
  initial_world (Some half_configured_scope) (fun _ => Return unavailable).

(** A POST whose body is no JSON. *)
Definition unreadable_request : Request.t :=
  {| Request.method := "POST";
     Request.url := "https://example.com/sse";
     Request.headers := [];
     Request.json := Throw (ErrorObject "Unexpected end of JSON input") |}.

Definition five : value := VNum (S754_finite false 5 0).

Definition full_search_arguments : value :=
  VObj [ ("query", VStr "cats"); ("count", five); ("country", VStr "US");
         ("safesearch", VStr "off") ].

Definition full_search_args : WebSearch.Args :=
  {| WebSearch.query := "cats"; WebSearch.count := Some 5;
     WebSearch.country := Some "US"; WebSearch.language := None;
     WebSearch.safesearch := Some "off" |}.

Definition news_args : NewsSearch.Args :=
  {| NewsSearch.query := "cats"; NewsSearch.count := None;
     NewsSearch.freshness := Some "week" |}.

Definition query_props : list (string * value) :=
  [ ("table", VStr "notes"); ("limit", five) ].

Definition query_args : QueryTable.Args :=
  {| QueryTable.table := "notes"; QueryTable.select := "*";
     QueryTable.limit := Some 5; QueryTable.order := None;
     QueryTable.filter := None |}.

Definition delete_arguments : value :=
  VObj [ ("table", VStr "notes"); ("filter", VStr "id=eq.1") ].

Definition delete_args : DeleteRows.Args :=
  {| DeleteRows.table := "notes"; DeleteRows.filter := "id=eq.1" |}.

Definition update_arguments : value :=
  VObj [ ("table", VStr "notes");
         ("updates", VObj [ ("done", VBool true) ]);
         ("filter", VStr "id=eq.1") ].

Definition update_args : UpdateRows.Args :=
  {| UpdateRows.table := "notes";
     UpdateRows.updates := [ ("done", VBool true) ];
     UpdateRows.filter := "id=eq.1" |}.

Definition execute_arguments : value := VObj [ ("function", VStr "refresh") ].

Definition execute_args : ExecuteStoredProcedure.Args :=
  {| ExecuteStoredProcedure.function := "refresh";
     ExecuteStoredProcedure.params := None |}.

(** * Properties *)

Section Properties.
Context {platform : Platform}.

(** ** The monad and the trace *)

Lemma skipn_length_app {A : Type} (l extra : list A) :
  skipn (List.length l) (l ++ extra)%list = extra.
Proof.
  induction l as [| x l IH]; simpl.
  - reflexivity.
  - exact IH.
Qed.

Lemma append_empty_r (s : string) : s ++ "" = s.
Proof.
  induction s as [| c s IH]; simpl.
  - reflexivity.
  - now rewrite IH.
Qed.

Lemma record_calls (c : Call) (w : World) :
  calls (snd (record c w)) = (calls w ++ [c])%list.
Proof. reflexivity. Qed.

(** A computation that ends in the world [record c w] has trace [[c]]. *)
Lemma trace_of_record {A : Type} (m : M A) (w : World) (c : Call) (o : Outcome A) :
  m w = (o, snd (record c w)) -> trace_of m w = [c].
Proof.
  intros H. unfold trace_of. rewrite H. simpl.
  apply skipn_length_app.
Qed.

Lemma trace_of_unchanged {A : Type} (m : M A) (w : World) (o : Outcome A) :
  m w = (o, w) -> trace_of m w = [].
Proof.
  intros H. unfold trace_of. rewrite H. simpl.
  rewrite <- (app_nil_r (calls w)) at 2.
  apply skipn_length_app.
Qed.

(** ** The POST branch of [fetch] *)

(** A routed method goes to the mock [handleRequest], whose answer is the
    empty result under the request's id, or null for a falsy id. *)
Lemma fetch_routed (this : SseHandler) (request : Request.t) (env : value) (w : World)
  (props : list (string * value)) (m : string) (schema : RequestSchema) :
  is_post request props ->
  lookup props "method" = VStr m ->
  In (m, schema) routed ->
  fetch this request env w =
    (Return (json_response 200 (success_body (js_or (lookup props "id") VNull) (VObj []))),
     snd (record (CallHandleRequest schema) w)).
Proof.
  intros [Hpost Hjson] Hmethod Hin.
  unfold fetch. rewrite Hpost.
  change (String.eqb "POST" "GET") with false.
  change (String.eqb "POST" "POST") with true. cbv iota.
  unfold try_catch, bind, lift. rewrite Hjson. cbn [get]. rewrite Hmethod.
  simpl in Hin.
  repeat (destruct Hin as [Heq | Hin];
          [ injection Heq as <- <-; reflexivity | ]).
  contradiction.
Qed.

(** An unrouted method name is answered by the catch block. *)
Lemma fetch_unrouted (this : SseHandler) (request : Request.t) (env : value) (w : World)
  (props : list (string * value)) (m : string) :
  is_post request props ->
  lookup props "method" = VStr m ->
  (forall schema, ~ In (m, schema) routed) ->
  fetch this request env w =
    (Return (json_response 500 (error_body MethodNotFound ("Unknown method: " ++ m))), w).
Proof.
  intros [Hpost Hjson] Hmethod Hnot.
  unfold fetch. rewrite Hpost.
  change (String.eqb "POST" "GET") with false.
  change (String.eqb "POST" "POST") with true. cbv iota.
  unfold try_catch, bind, lift. rewrite Hjson. cbn [get]. rewrite Hmethod.
  unfold strict_eq_str.
  assert (Hneq : forall name schema, In (name, schema) routed -> String.eqb m name = false).
  { intros name schema Hin. apply String.eqb_neq. intros ->. exact (Hnot schema Hin). }
  rewrite (Hneq "list_tools" ListToolsRequestSchema) by (simpl; auto).
  rewrite (Hneq "call_tool" CallToolRequestSchema) by (simpl; auto).
  rewrite (Hneq "list_resources" ListResourcesRequestSchema) by (simpl; auto).
  rewrite (Hneq "list_resource_templates" ListResourceTemplatesRequestSchema)
    by (simpl; auto 6).
  rewrite (Hneq "read_resource" ReadResourceRequestSchema) by (simpl; auto 7).
  reflexivity.
Qed.

Lemma handler_calls_handleRequest (name : string) (schema : RequestSchema) :
  handler_calls name [CallHandleRequest schema] = 0%nat.
Proof. reflexivity. Qed.

(** The five names [fetch] compares the method with are those of [routed]. *)
Lemma routed_names :
  map fst routed =
    ["list_tools"; "call_tool"; "list_resources"; "list_resource_templates";
     "read_resource"].
Proof. reflexivity. Qed.

Lemma not_routed (m : string) :
  ~ In m (map fst routed) -> forall schema, ~ In (m, schema) routed.
Proof.
  intros Hnot schema Hin. apply Hnot.
  change m with (fst (m, schema)). apply in_map. exact Hin.
Qed.

(** ** The dispatcher as the code has it *)

(** The server object holds no registry: what [fetch] answers does not
    depend on the handler object, hence not on what was registered. *)
Lemma fetch_ignores_the_server (h1 h2 : SseHandler) (request : Request.t) (env : value) :
  fetch h1 request env = fetch h2 request env.
Proof. reflexivity. Qed.

(** C8. A POST whose method is one of the five routed names is answered,
    whatever its params, with status 200 and the body
    [{jsonrpc: "2.0", id: <request id or null>, result: {}}]; the only call
    made is the one to the mock [handleRequest], so no tool handler runs. *)
Theorem routed_post_gets_empty_result
  (this : SseHandler) (request : Request.t) (env : value) (w : World)
  (props : list (string * value)) (m : string) (schema : RequestSchema) :
  is_post request props ->
  lookup props "method" = VStr m ->
  In (m, schema) routed ->
  fst (fetch this request env w) =
    Return {| Response.status := 200;
              Response.headers := [ ("Content-Type", "application/json") ];
              Response.body :=
                BodyJson (VObj [ ("jsonrpc", VStr "2.0");
                                 ("id", js_or (lookup props "id") VNull);
                                 ("result", VObj []) ]) |}
  /\ trace_of (fetch this request env) w = [CallHandleRequest schema]
  /\ filter is_any_handler_call (trace_of (fetch this request env) w) = [].
Proof.
  intros Hpost Hmethod Hin.
  pose proof (fetch_routed this _ env w _ _ _ Hpost Hmethod Hin) as H.
  rewrite (trace_of_record _ _ _ _ H). rewrite H.
  repeat split.
Qed.

(** C9. When the id of a routed POST is falsy, the response carries id
    null instead of the request's id. *)
Theorem falsy_id_answered_with_null
  (this : SseHandler) (request : Request.t) (env : value) (w : World)
  (props : list (string * value)) (m : string) (schema : RequestSchema) :
  is_post request props ->
  lookup props "method" = VStr m ->
  In (m, schema) routed ->
  truthy (lookup props "id") = false ->
  fst (fetch this request env w) =
    Return (json_response 200 (success_body VNull (VObj []))).
Proof.
  intros Hpost Hmethod Hin Hfalsy.
  rewrite (fetch_routed this _ env w _ _ _ Hpost Hmethod Hin).
  unfold js_or. rewrite Hfalsy. reflexivity.
Qed.

(** The ids C9 lists are falsy: an absent id, null, 0 (and -0), the empty
    string and false. *)
Lemma listed_ids_are_falsy :
  Forall (fun id => truthy id = false)
    [VUndefined; VNull; VNum (S754_zero false); VNum (S754_zero true); VStr ""; VBool false].
Proof. repeat constructor. Qed.

(** C10. A request whose method is neither GET nor POST is answered with
    status 405 and the text "Method not allowed", and nothing is called:
    neither [handleRequest] nor a tool handler. *)
Theorem other_methods_not_allowed
  (this : SseHandler) (request : Request.t) (env : value) (w : World) :
  Request.method request <> "GET" ->
  Request.method request <> "POST" ->
  fst (fetch this request env w) =
    Return {| Response.status := 405;
              Response.headers := [];
              Response.body := BodyText "Method not allowed" |}
  /\ trace_of (fetch this request env) w = [].
Proof.
  intros Hget Hpost.
  assert (H : fetch this request env w =
              (Return {| Response.status := 405;
                         Response.headers := [];
                         Response.body := BodyText "Method not allowed" |}, w)).
  { unfold fetch.
    apply String.eqb_neq in Hget. apply String.eqb_neq in Hpost.
    rewrite Hget, Hpost. reflexivity. }
  rewrite (trace_of_unchanged _ _ _ H). rewrite H. split; reflexivity.
Qed.

(** C3, amended. For every method name other than the five routed ones
    (list_tools, call_tool, list_resources, list_resource_templates,
    read_resource) the response has status 500 and the body
    [{jsonrpc: "2.0", error: {code: -32601, message}, id: null}], where
    the message includes the name; nothing is called. *)
Theorem unknown_method_not_found
  (this : SseHandler) (request : Request.t) (env : value) (w : World)
  (props : list (string * value)) (m : string) :
  is_post request props ->
  lookup props "method" = VStr m ->
  ~ In m ["list_tools"; "call_tool"; "list_resources"; "list_resource_templates";
          "read_resource"] ->
  exists message : string,
    fst (fetch this request env w) =
      Return {| Response.status := 500;
                Response.headers := [ ("Content-Type", "application/json") ];
                Response.body :=
                  BodyJson (VObj [ ("jsonrpc", VStr "2.0");
                                   ("error",
                                    VObj [ ("code", VNum (number_of_Z (-32601)));
                                           ("message", VStr message) ]);
                                   ("id", VNull) ]) |}
    /\ ErrorCode_value MethodNotFound = -32601
    /\ includes message m
    /\ trace_of (fetch this request env) w = [].
Proof.
  intros Hpost Hmethod Hnot.
  rewrite <- routed_names in Hnot.
  pose proof (fetch_unrouted this _ env w _ _ Hpost Hmethod (not_routed _ Hnot)) as H.
  exists ("Unknown method: " ++ m).
  rewrite (trace_of_unchanged _ _ _ H). rewrite H.
  repeat split.
  exists "Unknown method: ", "". now rewrite append_empty_r.
Qed.

(** C4, amended. A read_resource request is answered like every routed
    method: status 200 and the empty result, never an error. *)
Theorem read_resource_gets_empty_result
  (this : SseHandler) (request : Request.t) (env : value) (w : World)
  (props : list (string * value)) :
  is_post request props ->
  lookup props "method" = VStr "read_resource" ->
  fst (fetch this request env w) =
    Return (json_response 200 (success_body (js_or (lookup props "id") VNull) (VObj [])))
  /\ trace_of (fetch this request env) w = [CallHandleRequest ReadResourceRequestSchema].
Proof.
  intros Hpost Hmethod.
  assert (Hin : In ("read_resource", ReadResourceRequestSchema) routed)
    by (simpl; auto 7).
  pose proof (fetch_routed this _ env w _ _ _ Hpost Hmethod Hin) as H.
  rewrite (trace_of_record _ _ _ _ H). rewrite H. split; reflexivity.
Qed.

(** C1, amended. For a registered tool name and arguments that pass the
    tool's schema, a call_tool request is answered with status 200 and the
    empty result, and the tool's handler is not invoked. *)
Theorem call_tool_with_valid_arguments
  (this : SseHandler) (request : Request.t) (env : value) (w : World)
  (props : list (string * value))
  (T : string) (tool : ToolDefinition) (A : value) (args : Args tool) :
  is_post request props ->
  lookup props "method" = VStr "call_tool" ->
  lookup props "params" = call_tool_params T A ->
  find_tool T = Some tool ->
  inputSchema tool A = Some args ->
  fst (fetch this request env w) =
    Return (json_response 200 (success_body (js_or (lookup props "id") VNull) (VObj [])))
  /\ handler_calls T (trace_of (fetch this request env) w) = 0%nat.
Proof.
  intros Hpost Hmethod _ _ _.
  assert (Hin : In ("call_tool", CallToolRequestSchema) routed) by (simpl; auto).
  pose proof (fetch_routed this _ env w _ _ _ Hpost Hmethod Hin) as H.
  rewrite (trace_of_record _ _ _ _ H). rewrite H. split; reflexivity.
Qed.

(** C2, amended. For a registered tool name and arguments that violate the
    tool's schema, a call_tool request is answered with status 200 and the
    empty result (no error is reported), and the tool's handler is never
    invoked. *)
Theorem call_tool_with_invalid_arguments
  (this : SseHandler) (request : Request.t) (env : value) (w : World)
  (props : list (string * value))
  (T : string) (tool : ToolDefinition) (A : value) :
  is_post request props ->
  lookup props "method" = VStr "call_tool" ->
  lookup props "params" = call_tool_params T A ->
  find_tool T = Some tool ->
  inputSchema tool A = None ->
  fst (fetch this request env w) =
    Return (json_response 200 (success_body (js_or (lookup props "id") VNull) (VObj [])))
  /\ handler_calls T (trace_of (fetch this request env) w) = 0%nat.
Proof.
  intros Hpost Hmethod _ _ _.
  assert (Hin : In ("call_tool", CallToolRequestSchema) routed) by (simpl; auto).
  pose proof (fetch_routed this _ env w _ _ _ Hpost Hmethod Hin) as H.
  rewrite (trace_of_record _ _ _ _ H). rewrite H. split; reflexivity.
Qed.

(** ** The tool handlers *)

(** Runs a handler on a symbolic world: the monad is unfolded and the
    outcome of the upstream call is split into a rejection, a failure
    status, a body that does not parse, and a success. *)
Ltac run_monad :=
  repeat progress (unfold bind, try_catch, record, read, upstream_fetch, lift, throw, ret);
  cbn [network apiHeaders SUPABASE_URL SUPABASE_API_KEY calls self].

Ltac run_handler w :=
  run_monad;
  match goal with
  | |- context [network w ?req] =>
      destruct (network w req) as [response | e];
      [ destruct (ok response); cbn [negb];
        [ destruct (json response) as [data | e] | ] | ]
  | _ => idtac
  end.

Create HintDb handlers.
#[local] Hint Unfold
  puppeteer_navigate_handler puppeteer_screenshot_handler puppeteer_get_text_handler
  puppeteer_click_handler puppeteer_type_handler
  brave_web_search_handler brave_news_search_handler brave_image_search_handler
  supabase_query_table_handler supabase_insert_rows_handler supabase_update_rows_handler
  supabase_delete_rows_handler supabase_execute_function_handler : handlers.

Ltac pick_tool Hin :=
  unfold all_tools, createPuppeteerTools, brave_tools, supabase_tools in Hin;
  cbn [app In] in Hin;
  repeat (destruct Hin as [Hin | Hin]; [ injection Hin as <- <- | ]);
  [ .. | contradiction ].

(** C5. When the upstream call of brave_web_search throws or answers with
    a status that is no success, the handler returns (it does not throw) a
    ToolResult with isError true and one "text" block whose text starts
    with "Error in brave_web_search: "; a call_tool request naming the tool
    is answered with status 200. *)
Theorem brave_web_search_contains_upstream_failure
  (A : value) (args : WebSearch.Args) (w : World) :
  WebSearchSchema A = Some args ->
  upstream_fails (network w (brave_web_search_request args (apiHeaders w))) ->
  (exists (message : string) (w' : World),
     brave_web_search_handler args w =
       (Return {| content := [ {| type := "text";
                                  text := "Error in brave_web_search: " ++ message |} ];
                  isError := Some true |}, w'))
  /\ (forall (this : SseHandler) (request : Request.t) (env : value)
             (props : list (string * value)),
        is_post request props ->
        lookup props "method" = VStr "call_tool" ->
        lookup props "params" = call_tool_params "brave_web_search" A ->
        exists response : Response.t,
          fst (fetch this request env w) = Return response
          /\ Response.status response = 200).
Proof.
  intros _ Hfails. split.
  - unfold brave_web_search_handler. run_monad.
    destruct (network w (brave_web_search_request args (apiHeaders w)))
      as [response | e]; cbn [upstream_fails] in Hfails.
    + rewrite Hfails. cbn [negb]. eauto.
    + eauto.
  - intros this request env props Hpost Hmethod _.
    assert (Hin : In ("call_tool", CallToolRequestSchema) routed) by (simpl; auto).
    rewrite (fetch_routed this _ env w _ _ _ Hpost Hmethod Hin).
    eexists. split; reflexivity.
Qed.

(** The thirteen tools: five of puppeteer.ts, three of brave-search.ts, five
    of supabase.ts. *)
Lemma all_tools_names :
  map fst all_tools =
    [ "puppeteer_navigate"; "puppeteer_screenshot"; "puppeteer_get_text";
      "puppeteer_click"; "puppeteer_type";
      "brave_web_search"; "brave_news_search"; "brave_image_search";
      "supabase_query_table"; "supabase_insert_rows"; "supabase_update_rows";
      "supabase_delete_rows"; "supabase_execute_function" ].
Proof. reflexivity. Qed.

(** C7. For each of the thirteen tools and every argument object its
    schema accepts, the handler returns a ToolResult with exactly one
    content block, whatever the upstream does. *)
Theorem every_tool_result_has_one_block
  (name : string) (tool : ToolDefinition) (A : value) (args : Args tool) (w : World) :
  In (name, tool) all_tools ->
  inputSchema tool A = Some args ->
  exists (r : ToolResult) (w' : World),
    handler tool args w = (Return r, w') /\ List.length (content r) = 1%nat.
Proof.
  intros Hin _. revert args.
  pick_tool Hin; intros args; cbn [handler]; autounfold with handlers;
    run_handler w; eauto.
Qed.

(** Entering the handler of a registered tool is visible in the trace. *)
Lemma handler_entry_is_traced
  (name : string) (tool : ToolDefinition) (args : Args tool) (w : World) :
  In (name, tool) all_tools ->
  exists rest : list Call,
    trace_of (handler tool args) w = CallToolHandler name :: rest.
Proof.
  intros Hin. revert args.
  pick_tool Hin; intros args; cbn [handler]; autounfold with handlers;
    unfold trace_of;
    run_handler w; cbn [snd calls];
    rewrite <- ?app_assoc, skipn_length_app; cbn [app]; eauto.
Qed.

(** ** Registration *)

(** [createMcpServer] passes every tool of the three modules to
    [registerTool], in order, and calls nothing else. *)
Lemma createMcpServer_registers_all_tools (w : World) :
  trace_of createMcpServer w = map (fun entry => CallRegisterTool (fst entry)) all_tools.
Proof.
  unfold trace_of, createMcpServer, setupPuppeteerTools, setupBraveSearchTools,
    setupSupabaseTools, createBraveSearchTools, createSupabaseTools, registerTool.
  unfold createPuppeteerTools, brave_tools, supabase_tools, all_tools.
  destruct w as [scope net headers base key trace].
  destruct scope as [[brave ref role] |];
    [ destruct brave, ref, role | ];
    cbn [for_each bind try_catch record read ret set_apiHeaders set_supabase
         self network apiHeaders SUPABASE_URL SUPABASE_API_KEY calls
         BRAVE_API_KEY SUPABASE_PROJECT_REF SUPABASE_SERVICE_ROLE_KEY
         snd fst app map];
    rewrite <- ?app_assoc; apply skipn_length_app.
Qed.

(** ** The event stream *)

Lemma handleSseConnection_live : handleSseConnection new_stream = live 0.
Proof. reflexivity. Qed.

Lemma heartbeats_S (n : nat) :
  heartbeats (S n) =
    (heartbeats n ++ [(30000 * Z.of_nat (S n), heartbeat_chunk)])%list.
Proof.
  unfold heartbeats. rewrite seq_S, map_app. reflexivity.
Qed.

Lemma on_timer_live (n : nat) : on_timer (live n) = live (S n).
Proof.
  unfold on_timer, live, rearm, enqueue.
  cbn [interval closed enqueued abort_listener option_map period deadline].
  rewrite heartbeats_S. f_equal. f_equal. f_equal. lia.
Qed.

(** Once the interval is cleared and the stream closed, nothing is sent. *)
Lemma run_stopped (events : list StreamEvent) (s : Stream) :
  interval s = None ->
  enqueued (run events s) = enqueued s.
Proof.
  revert s. induction events as [| e events IH]; intros s Hint.
  - reflexivity.
  - unfold run in *. cbn [fold_left].
    destruct e; cbn [deliver].
    + unfold on_timer. rewrite Hint. now apply IH.
    + unfold on_abort. destruct (abort_listener s).
      * rewrite IH by reflexivity. reflexivity.
      * now apply IH.
Qed.

Lemma run_live (events : list StreamEvent) (n : nat) :
  enqueued (run events (live n)) =
    (0, connected_chunk) :: heartbeats (n + ticks_before_abort events).
Proof.
  revert n. induction events as [| e events IH]; intros n.
  - cbn [ticks_before_abort]. rewrite Nat.add_0_r. reflexivity.
  - unfold run in *. cbn [fold_left].
    destruct e; cbn [deliver ticks_before_abort].
    + rewrite on_timer_live, IH. now rewrite Nat.add_succ_r.
    + rewrite Nat.add_0_r.
      change (fold_left deliver events (on_abort (live n)))
        with (run events (on_abort (live n))).
      rewrite run_stopped by reflexivity. reflexivity.
Qed.

Lemma ticks_before_abort_cut (before after : list StreamEvent) :
  ticks_before_abort (before ++ AbortEvent :: after) = ticks_before_abort before.
Proof.
  induction before as [| e before IH].
  - reflexivity.
  - destruct e; cbn [app ticks_before_abort].
    + now rewrite IH.
    + reflexivity.
Qed.

(** After one interval the stream holds the connected event and one
    heartbeat, sent at 30000 ms. *)
Example first_heartbeat :
  enqueued (run [TimerDue] (handleSseConnection new_stream)) =
    [ (0, connected_chunk); (30000, heartbeat_chunk) ].
Proof. reflexivity. Qed.

(** The event stream in terms of the events delivered to it. A GET is
    answered with an event stream. Whatever the runtime delivers, the first
    chunk sent is the [connected] event with the body
    [{"serverId": "cloudflare-mcp-server"}], every later chunk is a
    [heartbeat] event, the k-th sent 30000 * k milliseconds after the
    connection opened, and nothing is sent once the abort event has been
    delivered to the listener. A signal that aborted before the listener
    was added delivers no such event: that case is settled under "The
    signal of the connection" below. *)
Theorem get_opens_event_stream
  (this : SseHandler) (request : Request.t) (env : value) (w : World) :
  Request.method request = "GET" ->
  exists s0 : Stream,
    fst (fetch this request env w) =
      Return {| Response.status := 200;
                Response.headers := [ ("Content-Type", "text/event-stream");
                                      ("Cache-Control", "no-cache");
                                      ("Connection", "keep-alive") ];
                Response.body := BodyStream s0 |}
    /\ (forall events : list StreamEvent,
          enqueued (run events s0) =
            (0, connected_chunk) :: heartbeats (ticks_before_abort events))
    /\ connected_chunk = frame "connected" (serverId_json "cloudflare-mcp-server")
    /\ "cloudflare-mcp-server" <> ""
    /\ heartbeat_chunk = frame "heartbeat" "{}"
    /\ (forall before after : list StreamEvent,
          enqueued (run (before ++ AbortEvent :: after) s0) = enqueued (run before s0)).
Proof.
  intros Hget. exists (handleSseConnection new_stream).
  rewrite handleSseConnection_live.
  repeat split.
  - unfold fetch. rewrite Hget. reflexivity.
  - intros events. apply (run_live events 0).
  - discriminate.
  - intros before after.
    rewrite !run_live, ticks_before_abort_cut. reflexivity.
Qed.

(** ** What [fetch] does on every request *)

Lemma strict_eq_str_true (v : value) (lit : string) :
  strict_eq_str v lit = true -> v = VStr lit.
Proof.
  destruct v; cbn [strict_eq_str]; try discriminate.
  intros H. apply String.eqb_eq in H. now subst.
Qed.

Lemma same_module_state_refl (w : World) : same_module_state w w.
Proof. repeat split. Qed.

Lemma same_module_state_record (c : Call) (w : World) :
  same_module_state w (snd (record c w)).
Proof. repeat split. Qed.

(** Where a run of [fetch] can end: in the world it started from, or in
    that world with one call to [handleRequest] added. *)
Lemma fetch_outcomes (this : SseHandler) (request : Request.t) (env : value) (w : World) :
  exists response : Response.t,
    (fetch this request env w = (Return response, w)
     /\ In (Response.status response) [200; 405; 500])
    \/ (exists schema : RequestSchema,
          fetch this request env w =
            (Return response, snd (record (CallHandleRequest schema) w))
          /\ Response.status response = 200).
Proof.
  unfold fetch.
  destruct (String.eqb (Request.method request) "GET").
  { eexists. left. split; [ reflexivity | simpl; auto ]. }
  destruct (String.eqb (Request.method request) "POST").
  2: { eexists. left. split; [ reflexivity | simpl; auto ]. }
  unfold try_catch, bind, lift.
  destruct (Request.json request) as [body | e].
  2: { eexists. left. split; [ reflexivity | simpl; auto ]. }
  destruct body as [ | | b | x | s | items | props ]; cbn [get];
    try (eexists; left; split; [ reflexivity | simpl; auto ]; fail).
  (* a boolean, a number, a string or an array has no [method]; an object
     is routed by its own *)
  repeat match goal with
         | |- context [if strict_eq_str ?m ?lit then _ else _] =>
             destruct (strict_eq_str m lit);
             [ eexists; right; eexists; split; reflexivity | ]
         end.
  destruct (ToString (lookup props "method")) as [name | e];
    eexists; left; (split; [ reflexivity | simpl; auto ]).
Qed.

(** X1. [fetch] never throws: every request, whatever its method and body,
    gets a response with status 200, 405 or 500. It leaves the module
    variables alone and calls at most [handleRequest], once: no tool
    handler and no upstream API is ever reached from a request. *)
Theorem fetch_always_answers
  (this : SseHandler) (request : Request.t) (env : value) (w : World) :
  exists (response : Response.t) (w' : World),
    fetch this request env w = (Return response, w')
    /\ In (Response.status response) [200; 405; 500]
    /\ same_module_state w w'
    /\ (trace_of (fetch this request env) w = []
        \/ exists schema : RequestSchema,
             trace_of (fetch this request env) w = [CallHandleRequest schema]).
Proof.
  destruct (fetch_outcomes this request env w)
    as [response [[H Hstatus] | [schema [H Hstatus]]]].
  - exists response, w. repeat split; try assumption; try reflexivity.
    left. exact (trace_of_unchanged _ _ _ H).
  - exists response, (snd (record (CallHandleRequest schema) w)).
    repeat split; try assumption.
    + rewrite Hstatus. simpl. auto.
    + right. exists schema. exact (trace_of_record _ _ _ _ H).
Qed.

Ltac enter_post Hpost :=
  unfold fetch; rewrite Hpost;
  change (String.eqb "POST" "GET") with false;
  change (String.eqb "POST" "POST") with true; cbv iota;
  unfold try_catch, bind, lift.

(** X2. A POST whose body cannot be read as JSON (request.json() rejects
    with an Error) is answered with status 500 and the JSON-RPC error
    InternalError (-32603) carrying the parser's message, id null; nothing
    is called. *)
Theorem unreadable_body_is_internal_error
  (this : SseHandler) (request : Request.t) (env : value) (w : World)
  (message : string) :
  Request.method request = "POST" ->
  Request.json request = Throw (ErrorObject message) ->
  fst (fetch this request env w) =
    Return (json_response 500 (error_body InternalError message))
  /\ ErrorCode_value InternalError = -32603
  /\ trace_of (fetch this request env) w = [].
Proof.
  intros Hpost Hjson.
  assert (H : fetch this request env w =
              (Return (json_response 500 (error_body InternalError message)), w)).
  { enter_post Hpost. rewrite Hjson. reflexivity. }
  rewrite (trace_of_unchanged _ _ _ H). rewrite H. repeat split.
Qed.

(** X3. A POST whose body is the JSON value null fails on the first
    property read: status 500 with InternalError and the engine's
    TypeError message, not MethodNotFound; nothing is called. *)
Theorem null_body_is_internal_error
  (this : SseHandler) (request : Request.t) (env : value) (w : World) :
  Request.method request = "POST" ->
  Request.json request = Return VNull ->
  fst (fetch this request env w) =
    Return (json_response 500
              (error_body InternalError (nullish_read_message VNull "method")))
  /\ trace_of (fetch this request env) w = [].
Proof.
  intros Hpost Hjson.
  assert (H : fetch this request env w =
              (Return (json_response 500
                         (error_body InternalError
                            (nullish_read_message VNull "method"))), w)).
  { enter_post Hpost. rewrite Hjson. reflexivity. }
  rewrite (trace_of_unchanged _ _ _ H). rewrite H. split; reflexivity.
Qed.

(** X4. Routing compares with [===], so a method that is not a string is
    never routed, even when it prints as a routed name (an array holding
    "list_tools", say): the answer has status 500 and nothing is called.
    When the method converts to a string the error is MethodNotFound and
    the message shows the conversion; a body that is an array or a
    primitive has no method and gives "Unknown method: undefined". *)
Theorem non_string_method_is_never_routed
  (this : SseHandler) (request : Request.t) (env : value) (w : World)
  (body method : value) :
  Request.method request = "POST" ->
  Request.json request = Return body ->
  get body "method" = Return method ->
  (forall s : string, method <> VStr s) ->
  (exists response : Response.t,
     fst (fetch this request env w) = Return response
     /\ Response.status response = 500)
  /\ (forall rendering : string,
        ToString method = Return rendering ->
        fst (fetch this request env w) =
          Return (json_response 500
                    (error_body MethodNotFound ("Unknown method: " ++ rendering))))
  /\ trace_of (fetch this request env) w = [].
Proof.
  intros Hpost Hjson Hget Hnot.
  assert (Hne : forall lit, strict_eq_str method lit = false).
  { intros lit. destruct (strict_eq_str method lit) eqn:E; [ | reflexivity ].
    apply strict_eq_str_true in E. exfalso. exact (Hnot lit E). }
  assert (H : exists response,
             fetch this request env w = (Return response, w)
             /\ Response.status response = 500
             /\ forall rendering, ToString method = Return rendering ->
                  response = json_response 500
                               (error_body MethodNotFound
                                  ("Unknown method: " ++ rendering))).
  { enter_post Hpost. rewrite Hjson, Hget. rewrite !Hne.
    destruct (ToString method) as [name | e]; eexists;
      (split; [ reflexivity | split; [ reflexivity | ] ]).
    - intros rendering [= <-]. reflexivity.
    - intros rendering [=]. }
  destruct H as [response [H [Hstatus Hrender]]].
  rewrite (trace_of_unchanged _ _ _ H). rewrite H. cbn [fst].
  split; [ | split ].
  - exists response. split; [ reflexivity | exact Hstatus ].
  - intros rendering Hr. now rewrite (Hrender rendering Hr).
  - reflexivity.
Qed.

(** X5. A POST is answered with status 200 exactly when its body is an
    object whose method is one of the five routed names, as a string. *)
Theorem post_succeeds_iff_routed
  (this : SseHandler) (request : Request.t) (env : value) (w : World) :
  Request.method request = "POST" ->
  (exists response : Response.t,
     fst (fetch this request env w) = Return response
     /\ Response.status response = 200)
  <-> (exists (props : list (string * value)) (m : string) (schema : RequestSchema),
         Request.json request = Return (VObj props)
         /\ lookup props "method" = VStr m
         /\ In (m, schema) routed).
Proof.
  intros Hpost. split.
  - intros [response [H Hstatus]]. revert H.
    enter_post Hpost. unfold ret.
    destruct (Request.json request) as [body | e];
      [ | cbn [fst]; intros [= <-]; discriminate Hstatus ].
    destruct body as [ | | b | x | s | items | props ]; cbn [get strict_eq_str];
      try (cbn [fst]; intros [= <-]; discriminate Hstatus).
    repeat match goal with
           | |- context [if strict_eq_str ?v ?lit then _ else _] =>
               let E := fresh "E" in
               destruct (strict_eq_str v lit) eqn:E;
               [ apply strict_eq_str_true in E; intros _;
                 exists props; eexists; eexists;
                 split; [ reflexivity | split; [ exact E | simpl; auto 7 ] ]
               | clear E ]
           end.
    destruct (ToString (lookup props "method")) as [name | e];
      unfold throw; cbn [fst]; intros [= <-]; discriminate Hstatus.
  - intros [props [m [schema [Hjson [Hmethod Hin]]]]].
    rewrite (fetch_routed this _ env w props m schema (conj Hpost Hjson) Hmethod Hin).
    eexists. split; reflexivity.
Qed.

(** ** Construction and configuration *)

(** X6. [createMcpServer] never throws and returns the server named
    cloudflare-mcp-server; on the way it calls [registerTool] once for each
    of the thirteen tools, Puppeteer first, then Brave Search, then
    Supabase, and calls nothing else. The thirteen names are distinct. *)
Theorem createMcpServer_registers_each_tool_once (w : World) :
  fst (createMcpServer w) =
    Return {| serverInfo := ("cloudflare-mcp-server", "1.0.0");
              capabilities := (VObj [], VObj []) |}
  /\ trace_of createMcpServer w =
       map CallRegisterTool
         [ "puppeteer_navigate"; "puppeteer_screenshot"; "puppeteer_get_text";
           "puppeteer_click"; "puppeteer_type";
           "brave_web_search"; "brave_news_search"; "brave_image_search";
           "supabase_query_table"; "supabase_insert_rows"; "supabase_update_rows";
           "supabase_delete_rows"; "supabase_execute_function" ]
  /\ NoDup (map fst all_tools).
Proof.
  split; [ | split ].
  - unfold createMcpServer, setupPuppeteerTools, setupBraveSearchTools,
      setupSupabaseTools, createBraveSearchTools, createSupabaseTools, registerTool.
    unfold createPuppeteerTools, brave_tools, supabase_tools.
    destruct w as [scope net headers base key trace].
    destruct scope as [[brave ref role] |];
      [ destruct brave, ref, role | ]; reflexivity.
  - rewrite createMcpServer_registers_all_tools. reflexivity.
  - rewrite all_tools_names.
    repeat (constructor;
            [ cbn [In]; intros H;
              repeat (destruct H as [H | H]; [ discriminate H | ]); exact H | ]).
    constructor.
Qed.

Lemma header_assign_same (headers : list (string * string)) (name v : string) :
  header (assign headers name v) name = Some v.
Proof.
  induction headers as [| [k old] rest IH]; cbn [assign header].
  - now rewrite String.eqb_refl.
  - destruct (String.eqb k name) eqn:E; cbn [header]; rewrite E.
    + reflexivity.
    + exact IH.
Qed.

Lemma header_assign_other (headers : list (string * string)) (name v other : string) :
  other <> name ->
  header (assign headers name v) other = header headers other.
Proof.
  intros Hne.
  induction headers as [| [k old] rest IH]; cbn [assign header].
  - apply String.eqb_neq in Hne. rewrite String.eqb_sym. now rewrite Hne.
  - destruct (String.eqb k name) eqn:E; cbn [header].
    + apply String.eqb_eq in E. subst k.
      assert (Hf : String.eqb name other = false)
        by (apply String.eqb_neq; congruence).
      now rewrite Hf.
    + now rewrite IH.
Qed.

(** X7. When the global scope has BRAVE_API_KEY, [createBraveSearchTools]
    stores it as the X-Subscription-Token header, whatever the header held
    before, leaves every other header as it was, and returns the three
    tools without calling anything. *)
Theorem createBraveSearchTools_stores_the_key
  (w : World) (scope : GlobalScope) (key : string) :
  self w = Some scope ->
  BRAVE_API_KEY scope = Some key ->
  fst (createBraveSearchTools w) = Return brave_tools
  /\ header (apiHeaders (snd (createBraveSearchTools w))) "X-Subscription-Token"
     = Some key
  /\ (forall name : string,
        name <> "X-Subscription-Token" ->
        header (apiHeaders (snd (createBraveSearchTools w))) name
        = header (apiHeaders w) name)
  /\ trace_of createBraveSearchTools w = [].
Proof.
  intros Hself Hkey.
  unfold trace_of, createBraveSearchTools, bind, read, ret, set_apiHeaders.
  rewrite Hself, Hkey. cbn [fst snd apiHeaders calls].
  repeat split.
  - apply header_assign_same.
  - intros name Hne. now apply header_assign_other.
  - rewrite <- (app_nil_r (calls w)) at 2. apply skipn_length_app.
Qed.

(** X8. The key is what the handlers send: after [createBraveSearchTools]
    in a scope with BRAVE_API_KEY, each of the three Brave handlers makes
    one upstream call, a GET whose X-Subscription-Token header is the
    key. *)
Theorem brave_handlers_send_the_key
  (name : string) (tool : ToolDefinition) (args : Args tool)
  (w : World) (scope : GlobalScope) (key : string) :
  In (name, tool) brave_tools ->
  self w = Some scope ->
  BRAVE_API_KEY scope = Some key ->
  exists request : HttpRequest,
    trace_of (createBraveSearchTools ;; handler tool args) w
    = [CallToolHandler name; CallFetch request]
    /\ http_method request = "GET"
    /\ header (http_headers request) "X-Subscription-Token" = Some key.
Proof.
  intros Hin Hself Hkey. revert args.
  unfold brave_tools in Hin. cbn [In] in Hin.
  repeat (destruct Hin as [Hin | Hin]; [ injection Hin as <- <- | ]);
    [ .. | contradiction ];
    intros args; cbn [handler]; autounfold with handlers;
    unfold trace_of, createBraveSearchTools;
    repeat progress (unfold bind, try_catch, record, read, upstream_fetch, lift,
                     throw, ret, set_apiHeaders);
    rewrite Hself, Hkey;
    cbn [network apiHeaders SUPABASE_URL SUPABASE_API_KEY calls self];
    eexists;
    (split;
     [ match goal with
       | |- context [network w ?req] =>
           destruct (network w req) as [response | e];
           [ destruct (ok response); cbn [negb];
             [ destruct (json response) as [data | e] | ] | ]
       end;
       cbn [snd calls]; rewrite <- ?app_assoc, skipn_length_app; reflexivity
     | split; [ reflexivity | apply header_assign_same ] ]).
Qed.

(** X9. [createSupabaseTools] configures the module only when the global
    scope has both SUPABASE_PROJECT_REF and SUPABASE_SERVICE_ROLE_KEY: the
    URL becomes https://<ref>.supabase.co and the key the service-role
    key. *)
Theorem createSupabaseTools_configures
  (w : World) (env : GlobalScope) (ref key : string) :
  self w = Some env ->
  SUPABASE_PROJECT_REF env = Some ref ->
  SUPABASE_SERVICE_ROLE_KEY env = Some key ->
  fst (createSupabaseTools w) = Return supabase_tools
  /\ SUPABASE_URL (snd (createSupabaseTools w)) = "https://" ++ ref ++ ".supabase.co"
  /\ SUPABASE_API_KEY (snd (createSupabaseTools w)) = key
  /\ apiHeaders (snd (createSupabaseTools w)) = apiHeaders w
  /\ trace_of createSupabaseTools w = [].
Proof.
  intros Hself Href Hkey.
  unfold trace_of, createSupabaseTools, bind, read, ret, set_supabase.
  rewrite Hself, Href, Hkey. cbn [fst snd SUPABASE_URL SUPABASE_API_KEY apiHeaders calls].
  repeat split.
  rewrite <- (app_nil_r (calls w)) at 2. apply skipn_length_app.
Qed.

(** X10. With only one of the two Supabase variables in the global scope,
    or with no global scope at all, [createSupabaseTools] changes nothing:
    URL and key keep the values they had (the empty string after module
    load), and the five tools are returned all the same. *)
Theorem createSupabaseTools_needs_both_variables (w : World) :
  (self w = None
   \/ exists env : GlobalScope,
        self w = Some env
        /\ (SUPABASE_PROJECT_REF env = None \/ SUPABASE_SERVICE_ROLE_KEY env = None)) ->
  createSupabaseTools w = (Return supabase_tools, w).
Proof.
  intros [Hself | [env [Hself [Hnone | Hnone]]]];
    unfold createSupabaseTools, bind, read, ret; rewrite Hself; try reflexivity.
  - rewrite Hnone. reflexivity.
  - rewrite Hnone. destruct (SUPABASE_PROJECT_REF env); reflexivity.
Qed.

(** ** The signal of the connection *)

Lemma run_connection_stopped (events : list RuntimeEvent) (n : nat) :
  run_connection events {| stream := stopped n; signal_aborted := true |}
  = {| stream := stopped n; signal_aborted := true |}.
Proof.
  induction events as [| e events IH].
  - reflexivity.
  - unfold run_connection in *. cbn [fold_left]. destruct e; exact IH.
Qed.

(** With a signal that is aborted from the start, nothing the runtime does
    reaches the listener: the connection stays live and every elapsed
    interval adds a heartbeat. *)
Lemma run_connection_aborted_already (events : list RuntimeEvent) (n : nat) :
  run_connection events {| stream := live n; signal_aborted := true |}
  = {| stream := live (n + elapsed events); signal_aborted := true |}.
Proof.
  revert n. induction events as [| e events IH]; intros n.
  - cbn [elapsed]. now rewrite Nat.add_0_r.
  - unfold run_connection in *. cbn [fold_left]. destruct e;
      cbn [step stream signal_aborted deliver elapsed].
    + rewrite on_timer_live, IH. now rewrite Nat.add_succ_r.
    + apply IH.
Qed.

(** With a signal that has not aborted when the connection opens, the first
    abort stops the stream, and the heartbeats sent are those of the
    intervals that elapsed before it. *)
Lemma run_connection_fresh (events : list RuntimeEvent) (n : nat) :
  run_connection events {| stream := live n; signal_aborted := false |}
  = if existsb is_signal_abort events
    then {| stream := stopped (n + elapsed_before_abort events); signal_aborted := true |}
    else {| stream := live (n + elapsed_before_abort events); signal_aborted := false |}.
Proof.
  revert n. induction events as [| e events IH]; intros n.
  - cbn [existsb elapsed_before_abort]. now rewrite Nat.add_0_r.
  - unfold run_connection in *. cbn [fold_left]. destruct e;
      cbn [step stream signal_aborted deliver existsb is_signal_abort orb
           elapsed_before_abort].
    + rewrite on_timer_live, IH. now rewrite Nat.add_succ_r.
    + rewrite Nat.add_0_r. apply (run_connection_stopped events n).
Qed.

(** For a signal that aborts after the connection opened, the code does
    what C6 says: once the signal has aborted, nothing more is sent. *)
Lemma fresh_signal_stops_the_stream (before after : list RuntimeEvent) :
  signal_aborted (run_connection before (open_connection false)) = true ->
  enqueued (stream (run_connection (before ++ after) (open_connection false)))
  = enqueued (stream (run_connection before (open_connection false))).
Proof.
  unfold open_connection. rewrite handleSseConnection_live.
  unfold run_connection at 2. rewrite fold_left_app.
  fold (run_connection before {| stream := live 0; signal_aborted := false |}).
  rewrite (run_connection_fresh before 0).
  destruct (existsb is_signal_abort before); cbn [signal_aborted]; [ | discriminate ].
  intros _.
  fold (run_connection after
          {| stream := stopped (0 + elapsed_before_abort before);
             signal_aborted := true |}).
  now rewrite run_connection_stopped.
Qed.

(** C6, at the input where the code departs from it: a GET whose signal is
    already aborted. [fetch] answers with the same event stream as for any
    other GET. The signal has fired, yet the stream is never closed and
    every elapsed interval adds a heartbeat, whatever the runtime does
    afterwards: after two intervals the chunks sent are [connected] at 0
    and heartbeats at 30000 and 60000 ms. C6 says that no event is emitted
    after the signal has fired. *)
Theorem aborted_signal_keeps_streaming
  (this : SseHandler) (env : value) (w : World) :
  fst (fetch this (sample_request "GET" VNull) env w) =
    Return {| Response.status := 200;
              Response.headers := [ ("Content-Type", "text/event-stream");
                                    ("Cache-Control", "no-cache");
                                    ("Connection", "keep-alive") ];
              Response.body := BodyStream (stream (open_connection true)) |}
  /\ signal_aborted (open_connection true) = true
  /\ (forall events : list RuntimeEvent,
        signal_aborted (run_connection events (open_connection true)) = true
        /\ closed (stream (run_connection events (open_connection true))) = false
        /\ enqueued (stream (run_connection events (open_connection true)))
           = (0, connected_chunk) :: heartbeats (elapsed events))
  /\ enqueued (stream (run_connection [IntervalElapses; IntervalElapses]
                         (open_connection true)))
     = [ (0, connected_chunk); (30000, heartbeat_chunk); (60000, heartbeat_chunk) ].
Proof.
  split; [ reflexivity | split; [ reflexivity | split; [ | reflexivity ] ] ].
  intros events. unfold open_connection. rewrite handleSseConnection_live.
  rewrite (run_connection_aborted_already events 0).
  repeat split.
Qed.

(** ** The envelopes of the network tools *)

Ltac pick_from Hin :=
  try unfold createPuppeteerTools in Hin;
  try unfold brave_tools in Hin;
  try unfold supabase_tools in Hin;
  cbn [In] in Hin;
  repeat (destruct Hin as [Hin | Hin]; [ injection Hin as <- <- | ]);
  [ .. | contradiction ].

Ltac split_upstream w :=
  match goal with
  | |- context [network w ?req] =>
      destruct (network w req) as [response | e];
      [ destruct (ok response); cbn [negb];
        [ destruct (json response) as [data | e] | ] | ]
  end.

(** Settles the five parts of an envelope statement once the handler is
    unfolded: the trace, then the four outcomes of the upstream call. *)
Ltac settle_envelope w :=
  match goal with
  | |- context [network w ?req] => exists req
  end;
  split;
  [ split_upstream w; cbn [snd calls];
    rewrite <- ?app_assoc, skipn_length_app; reflexivity
  | split;
    [ intros e H; rewrite H; reflexivity
    | split;
      [ intros response H Hok; rewrite H, Hok; reflexivity
      | split;
        [ intros response e H Hok Hjson; rewrite H, Hok; cbn [negb];
          rewrite Hjson; reflexivity
        | intros response data H Hok Hjson; rewrite H, Hok; cbn [negb];
          rewrite Hjson; reflexivity ] ] ] ].

(** X11. On arguments its schema accepted, each of the three Brave Search
    handlers makes exactly one upstream call and turns its outcome into one
    envelope: a rejected call and an
    unparsable body give "Error in <tool>: <error message>", a status
    outside 200-299 gives "Error in <tool>: Brave Search API error:
    <status> <statusText>", both with isError true; a parsed body gives its
    pretty-printed JSON with no isError. *)
Theorem brave_handlers_envelope
  (name : string) (tool : ToolDefinition) (A : value) (args : Args tool) (w : World) :
  In (name, tool) brave_tools ->
  inputSchema tool A = Some args ->
  exists request : HttpRequest,
    trace_of (handler tool args) w = [CallToolHandler name; CallFetch request]
    /\ (forall e : thrown,
          network w request = Throw e ->
          fst (handler tool args w) =
            Return (failure_result name (message_or_String e)))
    /\ (forall response : UpstreamResponse,
          network w request = Return response ->
          ok response = false ->
          fst (handler tool args w) =
            Return (failure_result name
                      ("Brave Search API error: " ++ status_line response)))
    /\ (forall (response : UpstreamResponse) (e : thrown),
          network w request = Return response ->
          ok response = true ->
          json response = Throw e ->
          fst (handler tool args w) =
            Return (failure_result name (message_or_String e)))
    /\ (forall (response : UpstreamResponse) (data : value),
          network w request = Return response ->
          ok response = true ->
          json response = Return data ->
          fst (handler tool args w) = Return (success_result data)).
Proof.
  intros Hin _. revert args.
  pick_from Hin; intros args; cbn [handler];
    autounfold with handlers; unfold trace_of; run_monad;
    settle_envelope w.
Qed.

(** X12. On arguments its schema accepted, each of the five Supabase
    handlers makes exactly one upstream call and follows the same policy,
    with the failure text "Error in <tool>: Supabase API error: <status>
    <statusText>" for a status outside 200-299. *)
Theorem supabase_handlers_envelope
  (name : string) (tool : ToolDefinition) (A : value) (args : Args tool) (w : World) :
  In (name, tool) supabase_tools ->
  inputSchema tool A = Some args ->
  exists request : HttpRequest,
    trace_of (handler tool args) w = [CallToolHandler name; CallFetch request]
    /\ (forall e : thrown,
          network w request = Throw e ->
          fst (handler tool args w) =
            Return (failure_result name (message_or_String e)))
    /\ (forall response : UpstreamResponse,
          network w request = Return response ->
          ok response = false ->
          fst (handler tool args w) =
            Return (failure_result name
                      ("Supabase API error: " ++ status_line response)))
    /\ (forall (response : UpstreamResponse) (e : thrown),
          network w request = Return response ->
          ok response = true ->
          json response = Throw e ->
          fst (handler tool args w) =
            Return (failure_result name (message_or_String e)))
    /\ (forall (response : UpstreamResponse) (data : value),
          network w request = Return response ->
          ok response = true ->
          json response = Return data ->
          fst (handler tool args w) = Return (success_result data)).
Proof.
  intros Hin _. revert args.
  pick_from Hin; intros args; cbn [handler];
    autounfold with handlers; unfold trace_of; run_monad;
    settle_envelope w.
Qed.

(** X13. No handler touches the module variables: after any of the
    thirteen handlers has run, on any arguments and any upstream outcome,
    the Brave headers, the Supabase URL and key, the global scope and the
    network are what they were. *)
Theorem handlers_keep_the_module_state
  (name : string) (tool : ToolDefinition) (args : Args tool) (w : World) :
  In (name, tool) all_tools ->
  same_module_state w (snd (handler tool args w)).
Proof.
  intros Hin. revert args.
  pick_tool Hin; intros args; cbn [handler]; autounfold with handlers;
    run_handler w; repeat split.
Qed.

(** X14. The five Puppeteer handlers are stubs: the result does not depend
    on the world, is never an error, and the handler makes no upstream
    call. *)
Theorem puppeteer_handlers_are_pure
  (name : string) (tool : ToolDefinition) (args : Args tool) :
  In (name, tool) createPuppeteerTools ->
  exists r : ToolResult,
    isError r = None
    /\ forall w : World,
         handler tool args w = (Return r, snd (record (CallToolHandler name) w)).
Proof.
  intros Hin. revert args.
  pick_from Hin; intros args; cbn [handler];
    autounfold with handlers; eexists;
    (split; [ | intros w; reflexivity ]); reflexivity.
Qed.

(** X15. puppeteer_screenshot falls back to the selector "body" when the
    selector is absent and also when it is the empty string. *)
Theorem screenshot_defaults_to_body (args : Screenshot.Args) (w : World) :
  Screenshot.selector args = None \/ Screenshot.selector args = Some "" ->
  fst (puppeteer_screenshot_handler args w) =
    Return {| content := [ {| type := "text";
                              text := "Screenshot taken of selector: body" |} ];
              isError := None |}.
Proof.
  intros [H | H]; unfold puppeteer_screenshot_handler, bind, record, ret;
    rewrite H; reflexivity.
Qed.

(** ** What the schemas let through *)

Lemma z_check_Some {A : Type} (p : A -> bool) (s : Schema A) (v : value) (a : A) :
  z_check p s v = Some a -> s v = Some a /\ p a = true.
Proof.
  unfold z_check. destruct (s v) as [b |]; [ | discriminate ].
  destruct (p b) eqn:Hp; [ | discriminate ].
  intros [= <-]. split; [ reflexivity | exact Hp ].
Qed.

Lemma z_optional_Some {A : Type} (s : Schema A) (v : value) (a : A) :
  z_optional s v = Some (Some a) -> s v = Some a.
Proof.
  unfold z_optional. destruct v; try discriminate;
    destruct (s _) as [parsed |]; cbn [option_map]; try discriminate;
    intros [= <-]; reflexivity.
Qed.

Lemma z_string_Some (v : value) (s : string) : z_string v = Some s -> v = VStr s.
Proof. destruct v; cbn [z_string]; try discriminate. now intros [= <-]. Qed.

Lemma min_length_nonempty (s : Schema string) (v : value) (t : string) :
  z_min_length 1 s v = Some t -> t <> "".
Proof.
  intros H. apply z_check_Some in H. destruct H as [_ H].
  intros ->. discriminate H.
Qed.

Lemma int_range (lo hi : Z) (v : value) (n : Z) :
  z_optional (z_max hi (z_min lo z_number_int)) v = Some (Some n) ->
  lo <= n <= hi.
Proof.
  intros H. apply z_optional_Some in H.
  apply z_check_Some in H. destruct H as [H Hhi].
  apply z_check_Some in H. destruct H as [_ Hlo].
  apply Z.leb_le in Hhi. apply Z.leb_le in Hlo. split; assumption.
Qed.

(** X16. What WebSearchSchema accepts is an object whose query is a
    non-empty string; in the parsed arguments the count, when present, is
    an integer from 1 to 20, the country has two code units, and safesearch
    is one of strict, moderate, off. *)
Theorem WebSearchSchema_bounds (v : value) (args : WebSearch.Args) :
  WebSearchSchema v = Some args ->
  (exists props : list (string * value),
     v = VObj props /\ lookup props "query" = VStr (WebSearch.query args))
  /\ WebSearch.query args <> ""
  /\ (forall n : Z, WebSearch.count args = Some n -> 1 <= n <= 20)
  /\ (forall c : string, WebSearch.country args = Some c -> String.length c = 2%nat)
  /\ (forall s : string,
        WebSearch.safesearch args = Some s -> In s ["strict"; "moderate"; "off"]).
Proof.
  unfold WebSearchSchema, z_object, field.
  destruct v as [ | | b | x | s | items | props ]; try discriminate.
  destruct (z_min_length 1 z_string (lookup props "query")) as [q |] eqn:Hq;
    [ | discriminate ].
  destruct (z_optional (z_max 20 (z_min 1 z_number_int)) (lookup props "count"))
    as [count |] eqn:Hcount; [ | discriminate ].
  destruct (z_optional (z_length 2 z_string) (lookup props "country"))
    as [country |] eqn:Hcountry; [ | discriminate ].
  destruct (z_optional z_string (lookup props "language")) as [language |];
    [ | discriminate ].
  destruct (z_optional (z_enum ["strict"; "moderate"; "off"]) (lookup props "safesearch"))
    as [safesearch |] eqn:Hsafe; [ | discriminate ].
  intros [= <-].
  cbn [WebSearch.query WebSearch.count WebSearch.country WebSearch.safesearch].
  split; [ | split; [ | split; [ | split ] ] ].
  - exists props. split; [ reflexivity | ].
    apply z_check_Some in Hq. destruct Hq as [Hq _].
    now apply z_string_Some.
  - exact (min_length_nonempty _ _ _ Hq).
  - intros n ->. exact (int_range _ _ _ _ Hcount).
  - intros c ->. apply z_optional_Some in Hcountry.
    apply z_check_Some in Hcountry. destruct Hcountry as [_ H].
    unfold string_length in H. apply Z.eqb_eq in H. lia.
  - intros s ->. apply z_optional_Some in Hsafe.
    apply z_check_Some in Hsafe. destruct Hsafe as [_ H].
    apply existsb_exists in H. destruct H as [o [Hin Heq]].
    apply String.eqb_eq in Heq. now subst o.
Qed.

(** X17. What QueryTableSchema accepts has a non-empty table name and, in
    the parsed arguments, a limit from 1 to 1000 when one is given; a
    missing select is replaced by "*". *)
Theorem QueryTableSchema_bounds (props : list (string * value)) (args : QueryTable.Args) :
  QueryTableSchema (VObj props) = Some args ->
  QueryTable.table args <> ""
  /\ (forall n : Z, QueryTable.limit args = Some n -> 1 <= n <= 1000)
  /\ (lookup props "select" = VUndefined -> QueryTable.select args = "*").
Proof.
  unfold QueryTableSchema, z_object, field.
  destruct (z_min_length 1 z_string (lookup props "table")) as [table |] eqn:Htable;
    [ | discriminate ].
  destruct (z_default "*" z_string (lookup props "select")) as [select |] eqn:Hselect;
    [ | discriminate ].
  destruct (z_optional (z_max 1000 (z_min 1 z_number_int)) (lookup props "limit"))
    as [limit |] eqn:Hlimit; [ | discriminate ].
  destruct (z_optional z_string (lookup props "order")) as [order |];
    [ | discriminate ].
  destruct (z_optional z_string (lookup props "filter")) as [filter |];
    [ | discriminate ].
  intros [= <-].
  cbn [QueryTable.table QueryTable.limit QueryTable.select].
  split; [ | split ].
  - exact (min_length_nonempty _ _ _ Htable).
  - intros n ->. exact (int_range _ _ _ _ Hlimit).
  - intros Hundef. rewrite Hundef in Hselect. cbn [z_default] in Hselect.
    now injection Hselect as <-.
Qed.

(** X18. Every tool's schema rejects arguments that are not an object:
    undefined (no [arguments] in the request), null, an array, a string, a
    number or a boolean. This holds even for puppeteer_screenshot, whose
    only field is optional. *)
Theorem schemas_reject_non_objects
  (name : string) (tool : ToolDefinition) (v : value) :
  In (name, tool) all_tools ->
  (forall props : list (string * value), v <> VObj props) ->
  inputSchema tool v = None.
Proof.
  intros Hin Hv.
  pick_tool Hin; cbn [inputSchema];
    (destruct v as [ | | b | x | s | items | props ];
     [ reflexivity .. | exfalso; exact (Hv props eq_refl) ]).
Qed.

(** X19. For arguments that DeleteRowsSchema accepted, the one upstream
    call of supabase_delete_rows is a DELETE, without body, whose URL
    string is <SUPABASE_URL>/rest/v1/<table>?<filter>, with a non-empty
    table argument and a non-empty filter argument. *)
Theorem delete_is_always_filtered (v : value) (args : DeleteRows.Args) (w : World) :
  DeleteRowsSchema v = Some args ->
  exists request : HttpRequest,
    trace_of (supabase_delete_rows_handler args) w
    = [CallToolHandler "supabase_delete_rows"; CallFetch request]
    /\ http_method request = "DELETE"
    /\ http_body request = None
    /\ url request = SUPABASE_URL w ++ "/rest/v1/" ++ DeleteRows.table args
                     ++ "?" ++ DeleteRows.filter args
    /\ DeleteRows.table args <> ""
    /\ DeleteRows.filter args <> "".
Proof.
  intros Hschema.
  assert (Hne : DeleteRows.table args <> "" /\ DeleteRows.filter args <> "").
  { revert Hschema. unfold DeleteRowsSchema, z_object, field.
    destruct v as [ | | b | x | s | items | props ]; try discriminate.
    destruct (z_min_length 1 z_string (lookup props "table")) as [table |] eqn:Ht;
      [ | discriminate ].
    destruct (z_min_length 1 z_string (lookup props "filter")) as [filter |] eqn:Hf;
      [ | discriminate ].
    intros [= <-]. cbn [DeleteRows.table DeleteRows.filter].
    split; eapply min_length_nonempty; eassumption. }
  destruct Hne as [Htable Hfilter].
  unfold supabase_delete_rows_handler, trace_of. run_monad.
  eexists. split.
  - split_upstream w; cbn [snd calls];
      rewrite <- ?app_assoc, skipn_length_app; reflexivity.
  - repeat split; assumption.
Qed.

(** X20. supabase_update_rows likewise: for arguments that UpdateRowsSchema
    accepted, the one upstream call is a PATCH of
    <SUPABASE_URL>/rest/v1/<table>?<filter> with a non-empty filter, whose
    body is the JSON text of the updates. *)
Theorem update_is_always_filtered (v : value) (args : UpdateRows.Args) (w : World) :
  UpdateRowsSchema v = Some args ->
  exists request : HttpRequest,
    trace_of (supabase_update_rows_handler args) w
    = [CallToolHandler "supabase_update_rows"; CallFetch request]
    /\ http_method request = "PATCH"
    /\ http_body request = Some (json_stringify (VObj (UpdateRows.updates args)))
    /\ url request = SUPABASE_URL w ++ "/rest/v1/" ++ UpdateRows.table args
                     ++ "?" ++ UpdateRows.filter args
    /\ UpdateRows.table args <> ""
    /\ UpdateRows.filter args <> "".
Proof.
  intros Hschema.
  assert (Hne : UpdateRows.table args <> "" /\ UpdateRows.filter args <> "").
  { revert Hschema. unfold UpdateRowsSchema, z_object, field.
    destruct v as [ | | b | x | s | items | props ]; try discriminate.
    destruct (z_min_length 1 z_string (lookup props "table")) as [table |] eqn:Ht;
      [ | discriminate ].
    destruct (z_record_any (lookup props "updates")) as [updates |];
      [ | discriminate ].
    destruct (z_min_length 1 z_string (lookup props "filter")) as [filter |] eqn:Hf;
      [ | discriminate ].
    intros [= <-]. cbn [UpdateRows.table UpdateRows.filter].
    split; eapply min_length_nonempty; eassumption. }
  destruct Hne as [Htable Hfilter].
  unfold supabase_update_rows_handler, trace_of. run_monad.
  eexists. split.
  - split_upstream w; cbn [snd calls];
      rewrite <- ?app_assoc, skipn_length_app; reflexivity.
  - repeat split; assumption.
Qed.

(** X21. supabase_execute_function posts to
    <SUPABASE_URL>/rest/v1/rpc/<function> with a non-empty function name;
    the body is the JSON text of params, and there is no body at all when
    params is omitted. *)
Theorem execute_function_request
  (v : value) (args : ExecuteStoredProcedure.Args) (w : World) :
  ExecuteStoredProcedureSchema v = Some args ->
  exists request : HttpRequest,
    trace_of (supabase_execute_function_handler args) w
    = [CallToolHandler "supabase_execute_function"; CallFetch request]
    /\ http_method request = "POST"
    /\ url request = SUPABASE_URL w ++ "/rest/v1/rpc/"
                     ++ ExecuteStoredProcedure.function args
    /\ ExecuteStoredProcedure.function args <> ""
    /\ (ExecuteStoredProcedure.params args = None -> http_body request = None)
    /\ (forall params : list (string * value),
          ExecuteStoredProcedure.params args = Some params ->
          http_body request = Some (json_stringify (VObj params))).
Proof.
  intros Hschema.
  assert (Hne : ExecuteStoredProcedure.function args <> "").
  { revert Hschema. unfold ExecuteStoredProcedureSchema, z_object, field.
    destruct v as [ | | b | x | s | items | props ]; try discriminate.
    destruct (z_min_length 1 z_string (lookup props "function")) as [f |] eqn:Hf;
      [ | discriminate ].
    destruct (z_optional z_record_any (lookup props "params")) as [params |];
      [ | discriminate ].
    intros [= <-]. cbn [ExecuteStoredProcedure.function].
    eapply min_length_nonempty; eassumption. }
  unfold supabase_execute_function_handler, trace_of. run_monad.
  eexists. split.
  - split_upstream w; cbn [snd calls];
      rewrite <- ?app_assoc, skipn_length_app; reflexivity.
  - cbn [http_method url http_body].
    split; [ reflexivity | split; [ reflexivity | split; [ exact Hne | split ] ] ].
    + intros ->. reflexivity.
    + intros params ->. reflexivity.
Qed.

(** ** Where the Supabase requests go *)

Lemma prefix_empty (s : string) : String.prefix "" s = true.
Proof. destruct s; reflexivity. Qed.

Lemma prefix_append (p s : string) : String.prefix p (p ++ s) = true.
Proof.
  induction p as [| a p IH]; cbn [String.append].
  - apply prefix_empty.
  - cbn [String.prefix]. destruct (ascii_dec a a); [ exact IH | contradiction ].
Qed.

Lemma prefix_append_r (p u x : string) :
  String.prefix p u = true -> String.prefix p (u ++ x) = true.
Proof.
  revert u. induction p as [| a p IH]; intros u.
  - intros _. apply prefix_empty.
  - destruct u as [| b u]; cbn [String.prefix String.append]; [ discriminate | ].
    destruct (ascii_dec a b); [ apply IH | discriminate ].
Qed.

Lemma prefix_under (base p u : string) :
  String.prefix p u = true -> String.prefix (base ++ p) (base ++ u) = true.
Proof.
  intros H. induction base as [| a base IH]; cbn [String.append String.prefix].
  - exact H.
  - destruct (ascii_dec a a); [ exact IH | contradiction ].
Qed.

Lemma add_if_string_prefix (p u pre : string) (s : option string) :
  String.prefix p u = true -> String.prefix p (add_if_string u pre s) = true.
Proof.
  intros H. unfold add_if_string.
  destruct s as [t |]; [ destruct (String.eqb t "") | ]; try exact H.
  now apply prefix_append_r.
Qed.

Lemma add_if_number_prefix (p u pre : string) (n : option Z) :
  String.prefix p u = true -> String.prefix p (add_if_number u pre n) = true.
Proof.
  intros H. unfold add_if_number.
  destruct n as [k |]; [ destruct (k =? 0) | ]; try exact H.
  now apply prefix_append_r.
Qed.

(** X22. On arguments its schema accepted, every Supabase handler reads
    the URL and the key when it is called: the string it passes to [fetch]
    as URL begins with <SUPABASE_URL>/rest/v1/ (as text: the handler does
    not normalise or encode what follows), and the headers carry the key of
    that moment both as apikey and as the bearer token. *)
Theorem supabase_requests_carry_the_credentials
  (name : string) (tool : ToolDefinition) (A : value) (args : Args tool) (w : World) :
  In (name, tool) supabase_tools ->
  inputSchema tool A = Some args ->
  exists request : HttpRequest,
    trace_of (handler tool args) w = [CallToolHandler name; CallFetch request]
    /\ header (http_headers request) "apikey" = Some (SUPABASE_API_KEY w)
    /\ header (http_headers request) "Authorization"
       = Some ("Bearer " ++ SUPABASE_API_KEY w)
    /\ String.prefix (SUPABASE_URL w ++ "/rest/v1/") (url request) = true.
Proof.
  intros Hin _. revert args.
  pick_from Hin; intros args; cbn [handler];
    autounfold with handlers; unfold trace_of; run_monad;
    (eexists; split;
     [ split_upstream w; cbn [snd calls];
       rewrite <- ?app_assoc, skipn_length_app; reflexivity
     | split; [ reflexivity | split; [ reflexivity | ] ] ]);
    cbn [url];
    repeat first [ apply add_if_string_prefix | apply add_if_number_prefix ];
    apply prefix_under; apply (prefix_append "/rest/v1/").
Qed.

(** ** The connection as a state machine *)

Lemma run_stopped_state (events : list StreamEvent) (n : nat) :
  run events (stopped n) = stopped n.
Proof.
  induction events as [| e events IH].
  - reflexivity.
  - unfold run in *. cbn [fold_left]. destruct e; exact IH.
Qed.

(** The state after any run: still live when no abort event came, stopped
    otherwise, with the heartbeats sent before the first abort. *)
Lemma run_live_state (events : list StreamEvent) (n : nat) :
  run events (live n) =
    if existsb is_abort events
    then stopped (n + ticks_before_abort events)
    else live (n + ticks_before_abort events).
Proof.
  revert n. induction events as [| e events IH]; intros n.
  - cbn [existsb ticks_before_abort]. now rewrite Nat.add_0_r.
  - unfold run in *. cbn [fold_left]. destruct e;
      cbn [deliver existsb is_abort orb ticks_before_abort].
    + rewrite on_timer_live, IH. now rewrite Nat.add_succ_r.
    + rewrite Nat.add_0_r. apply (run_stopped_state events n).
Qed.

Lemma existsb_is_abort (events : list StreamEvent) :
  existsb is_abort events = true <-> In AbortEvent events.
Proof.
  rewrite existsb_exists. split.
  - intros [e [Hin He]]. destruct e; [ discriminate | exact Hin ].
  - intros Hin. exists AbortEvent. split; [ exact Hin | reflexivity ].
Qed.

(** X23. Whatever the runtime delivers to a connection, in any order and
    any number of times: the stream is closed exactly when an abort event
    was delivered, the interval timer is cleared exactly then (so no timer
    outlives a closed stream and no open stream is without its timer), and
    while the timer runs its period is 30000 ms and its next deadline is
    30000 ms times the number of chunks sent so far. *)
Theorem connection_invariant (events : list StreamEvent) :
  let s := run events (handleSseConnection new_stream) in
  (closed s = true <-> In AbortEvent events)
  /\ (interval s = None <-> In AbortEvent events)
  /\ (forall t : Timer,
        interval s = Some t ->
        period t = 30000
        /\ deadline t = 30000 * Z.of_nat (List.length (enqueued s))).
Proof.
  cbv zeta. rewrite handleSseConnection_live, run_live_state.
  rewrite <- existsb_is_abort.
  destruct (existsb is_abort events).
  - cbn [stopped close clearInterval closed interval].
    repeat split; try reflexivity; discriminate.
  - cbn [live closed interval enqueued].
    split; [ split; discriminate | split; [ split; discriminate | ] ].
    intros t [= <-]. cbn [period deadline List.length].
    unfold heartbeats. rewrite length_map, length_seq.
    split; reflexivity.
Qed.

(** ** Building the server again *)

Lemma assign_idempotent (headers : list (string * string)) (name v : string) :
  assign (assign headers name v) name v = assign headers name v.
Proof.
  induction headers as [| [k old] rest IH]; cbn [assign].
  - now rewrite String.eqb_refl.
  - destruct (String.eqb k name) eqn:E; cbn [assign]; rewrite E.
    + reflexivity.
    + now rewrite IH.
Qed.

(** X24. Configuration is idempotent: building the server a second time
    (a second [SseHandler]) in the same global scope leaves the Brave
    headers and the Supabase URL and key exactly as the first build set
    them. *)
Theorem createMcpServer_twice_same_configuration (w : World) :
  same_module_state
    (snd (createMcpServer w))
    (snd (createMcpServer (snd (createMcpServer w)))).
Proof.
  unfold same_module_state, createMcpServer, setupPuppeteerTools, setupBraveSearchTools,
    setupSupabaseTools, createBraveSearchTools, createSupabaseTools, registerTool.
  unfold createPuppeteerTools, brave_tools, supabase_tools.
  destruct w as [scope net headers base key trace].
  destruct scope as [[brave ref role] |];
    [ destruct brave, ref, role | ];
    cbn [for_each bind try_catch record read ret set_apiHeaders set_supabase
         self network apiHeaders SUPABASE_URL SUPABASE_API_KEY calls
         BRAVE_API_KEY SUPABASE_PROJECT_REF SUPABASE_SERVICE_ROLE_KEY snd fst];
    repeat split; apply assign_idempotent.
Qed.

End Properties.

(** * The theorems at concrete inputs *)

(** The handler object of the examples is the one the constructor builds,
    and building it registers the thirteen tools. *)
Example new_SseHandler_sample :
  fst (new_SseHandler (platform := sample_platform) sample_world) = Return sample_handler
  /\ List.length (calls (snd (new_SseHandler (platform := sample_platform) sample_world)))
     = 13%nat.
Proof. split; reflexivity. Qed.

(** C8 at a call_tool request with id "7". *)
Lemma routed_post_gets_empty_result_witness :
  fst (fetch (platform := sample_platform) sample_handler
         (sample_request "POST"
            (VObj (call_tool_body (Some (VStr "7")) "puppeteer_click" click_arguments)))
         VNull sample_world) =
    Return {| Response.status := 200;
              Response.headers := [ ("Content-Type", "application/json") ];
              Response.body :=
                BodyJson (VObj [ ("jsonrpc", VStr "2.0");
                                 ("id", VStr "7");
                                 ("result", VObj []) ]) |}
  /\ trace_of (fetch (platform := sample_platform) sample_handler
                 (sample_request "POST"
                    (VObj (call_tool_body (Some (VStr "7")) "puppeteer_click"
                             click_arguments)))
                 VNull) sample_world = [CallHandleRequest CallToolRequestSchema]
  /\ filter is_any_handler_call
       (trace_of (fetch (platform := sample_platform) sample_handler
                    (sample_request "POST"
                       (VObj (call_tool_body (Some (VStr "7")) "puppeteer_click"
                                click_arguments)))
                    VNull) sample_world) = [].
Proof.
  apply (routed_post_gets_empty_result (platform := sample_platform)
           sample_handler _ VNull sample_world
           (call_tool_body (Some (VStr "7")) "puppeteer_click" click_arguments)
           "call_tool" CallToolRequestSchema).
  - split; reflexivity.
  - reflexivity.
  - simpl. auto.
Defined.

(** C9 at the id 0. *)
Lemma falsy_id_answered_with_null_witness :
  truthy zero = false
  /\ fst (fetch (platform := sample_platform) sample_handler
            (sample_request "POST" (VObj [ ("method", VStr "list_tools"); ("id", zero) ]))
            VNull sample_world) =
       Return (json_response 200 (success_body VNull (VObj []))).
Proof.
  split.
  - reflexivity.
  - apply (falsy_id_answered_with_null (platform := sample_platform)
             sample_handler _ VNull sample_world
             [ ("method", VStr "list_tools"); ("id", zero) ]
             "list_tools" ListToolsRequestSchema).
    + split; reflexivity.
    + reflexivity.
    + simpl. auto.
    + reflexivity.
Defined.

(** C10 at a PUT. *)
Lemma other_methods_not_allowed_witness :
  fst (fetch (platform := sample_platform) sample_handler
         (sample_request "PUT" VNull) VNull sample_world) =
    Return {| Response.status := 405;
              Response.headers := [];
              Response.body := BodyText "Method not allowed" |}
  /\ trace_of (fetch (platform := sample_platform) sample_handler
                 (sample_request "PUT" VNull) VNull) sample_world = [].
Proof.
  apply (other_methods_not_allowed (platform := sample_platform)
           sample_handler (sample_request "PUT" VNull) VNull sample_world).
  - discriminate.
  - discriminate.
Defined.

(** C3 as stated fails at list_resource_templates: the name is none of the
    four the claim excepts, and the request is answered with status 200
    and the empty result. *)
Lemma list_resource_templates_is_routed :
  ~ In "list_resource_templates"
      ["list_tools"; "call_tool"; "list_resources"; "read_resource"]
  /\ fst (fetch (platform := sample_platform) sample_handler
            (sample_request "POST" (VObj [ ("method", VStr "list_resource_templates") ]))
            VNull sample_world) =
       Return (json_response 200 (success_body VNull (VObj [])))
  /\ (forall message : string,
        success_body VNull (VObj []) <> error_body MethodNotFound message).
Proof.
  split; [ | split ].
  - simpl. intros [H | [H | [H | [H | []]]]]; discriminate H.
  - reflexivity.
  - intros message H. discriminate H.
Qed.

(** C3, amended, at the method name tools/list. *)
Lemma unknown_method_not_found_witness :
  exists message : string,
    fst (fetch (platform := sample_platform) sample_handler
           (sample_request "POST" (VObj [ ("method", VStr "tools/list") ]))
           VNull sample_world) =
      Return {| Response.status := 500;
                Response.headers := [ ("Content-Type", "application/json") ];
                Response.body :=
                  BodyJson (VObj [ ("jsonrpc", VStr "2.0");
                                   ("error",
                                    VObj [ ("code", VNum (number_of_Z (-32601)));
                                           ("message", VStr message) ]);
                                   ("id", VNull) ]) |}
    /\ ErrorCode_value MethodNotFound = -32601
    /\ includes message "tools/list"
    /\ trace_of (fetch (platform := sample_platform) sample_handler
                   (sample_request "POST" (VObj [ ("method", VStr "tools/list") ]))
                   VNull) sample_world = [].
Proof.
  apply (unknown_method_not_found (platform := sample_platform)
           sample_handler _ VNull sample_world
           [ ("method", VStr "tools/list") ] "tools/list").
  - split; reflexivity.
  - reflexivity.
  - simpl. intros [H | [H | [H | [H | [H | []]]]]]; discriminate H.
Defined.

(** C4 as stated fails at every read_resource request: the answer is a
    success with the empty result, not a MethodNotFound error. *)
Lemma read_resource_succeeds :
  fst (fetch (platform := sample_platform) sample_handler
         (sample_request "POST"
            (VObj [ ("method", VStr "read_resource");
                    ("params", VObj [ ("uri", VStr "file:///notes.txt") ]) ]))
         VNull sample_world) =
    Return (json_response 200 (success_body VNull (VObj [])))
  /\ (forall message : string,
        success_body VNull (VObj []) <> error_body MethodNotFound message).
Proof.
  split.
  - reflexivity.
  - intros message H. discriminate H.
Qed.

(** C4, amended, at the same request. *)
Lemma read_resource_gets_empty_result_witness :
  fst (fetch (platform := sample_platform) sample_handler
         (sample_request "POST"
            (VObj [ ("method", VStr "read_resource");
                    ("params", VObj [ ("uri", VStr "file:///notes.txt") ]) ]))
         VNull sample_world) =
    Return (json_response 200 (success_body VNull (VObj [])))
  /\ trace_of (fetch (platform := sample_platform) sample_handler
                 (sample_request "POST"
                    (VObj [ ("method", VStr "read_resource");
                            ("params", VObj [ ("uri", VStr "file:///notes.txt") ]) ]))
                 VNull) sample_world = [CallHandleRequest ReadResourceRequestSchema].
Proof.
  apply (read_resource_gets_empty_result (platform := sample_platform)
           sample_handler _ VNull sample_world
           [ ("method", VStr "read_resource");
             ("params", VObj [ ("uri", VStr "file:///notes.txt") ]) ]).
  - split; reflexivity.
  - reflexivity.
Defined.

(** C1 as stated fails at puppeteer_click with the arguments
    [{selector: "#go"}]: the schema accepts them and the handler would
    return one text block, but the response carries the empty result and
    the handler is entered zero times, not once. *)
Lemma call_tool_does_not_run_the_handler :
  exists (tool : ToolDefinition) (args : Args tool) (r : ToolResult) (w' : World),
    find_tool (platform := sample_platform) "puppeteer_click" = Some tool
    /\ inputSchema tool click_arguments = Some args
    /\ handler tool args sample_world = (Return r, w')
    /\ fst (fetch (platform := sample_platform) sample_handler
              (sample_request "POST"
                 (VObj (call_tool_body None "puppeteer_click" click_arguments)))
              VNull sample_world) =
         Return (json_response 200 (success_body VNull (VObj [])))
    /\ VObj [] <> ToolResult_value r
    /\ handler_calls "puppeteer_click"
         (trace_of (fetch (platform := sample_platform) sample_handler
                      (sample_request "POST"
                         (VObj (call_tool_body None "puppeteer_click" click_arguments)))
                      VNull) sample_world) = 0%nat.
Proof.
  do 4 eexists.
  split; [ reflexivity | ].
  split; [ reflexivity | ].
  split; [ reflexivity | ].
  split; [ reflexivity | ].
  split; [ | reflexivity ].
  intros H. discriminate H.
Qed.

(** C1, amended, at the same request. *)
Lemma call_tool_with_valid_arguments_witness :
  fst (fetch (platform := sample_platform) sample_handler
         (sample_request "POST"
            (VObj (call_tool_body None "puppeteer_click" click_arguments)))
         VNull sample_world) =
    Return (json_response 200 (success_body VNull (VObj [])))
  /\ handler_calls "puppeteer_click"
       (trace_of (fetch (platform := sample_platform) sample_handler
                    (sample_request "POST"
                       (VObj (call_tool_body None "puppeteer_click" click_arguments)))
                    VNull) sample_world) = 0%nat.
Proof.
  apply (call_tool_with_valid_arguments (platform := sample_platform)
           sample_handler _ VNull sample_world
           (call_tool_body None "puppeteer_click" click_arguments)
           "puppeteer_click"
           {| description := "Click on an element on the page";
              inputSchema := ClickSchema;
              handler := puppeteer_click_handler |}
           click_arguments {| Click.selector := "#go" |}).
  - split; reflexivity.
  - reflexivity.
  - reflexivity.
  - reflexivity.
  - reflexivity.
Defined.

(** C2 as stated fails at puppeteer_click with the arguments [{}]: the
    schema rejects them (selector is required), yet the response is a
    success with the empty result and reports no InvalidParams error. *)
Lemma invalid_arguments_are_not_reported :
  exists tool : ToolDefinition,
    find_tool (platform := sample_platform) "puppeteer_click" = Some tool
    /\ inputSchema tool (VObj []) = None
    /\ fst (fetch (platform := sample_platform) sample_handler
              (sample_request "POST"
                 (VObj (call_tool_body None "puppeteer_click" (VObj []))))
              VNull sample_world) =
         Return (json_response 200 (success_body VNull (VObj [])))
    /\ (forall message : string,
          success_body VNull (VObj []) <> error_body InvalidParams message).
Proof.
  eexists.
  split; [ reflexivity | ].
  split; [ reflexivity | ].
  split; [ reflexivity | ].
  intros message H. discriminate H.
Qed.

(** C2, amended, at the same request. *)
Lemma call_tool_with_invalid_arguments_witness :
  fst (fetch (platform := sample_platform) sample_handler
         (sample_request "POST"
            (VObj (call_tool_body None "puppeteer_click" (VObj []))))
         VNull sample_world) =
    Return (json_response 200 (success_body VNull (VObj [])))
  /\ handler_calls "puppeteer_click"
       (trace_of (fetch (platform := sample_platform) sample_handler
                    (sample_request "POST"
                       (VObj (call_tool_body None "puppeteer_click" (VObj []))))
                    VNull) sample_world) = 0%nat.
Proof.
  apply (call_tool_with_invalid_arguments (platform := sample_platform)
           sample_handler _ VNull sample_world
           (call_tool_body None "puppeteer_click" (VObj []))
           "puppeteer_click"
           {| description := "Click on an element on the page";
              inputSchema := ClickSchema;
              handler := puppeteer_click_handler |}
           (VObj [])).
  - split; reflexivity.
  - reflexivity.
  - reflexivity.
  - reflexivity.
  - reflexivity.
Defined.

(** C5 at the query "cats" against an upstream that answers 503. *)
Lemma brave_web_search_contains_upstream_failure_witness :
  (exists (message : string) (w' : World),
     brave_web_search_handler (platform := sample_platform) search_args sample_world =
       (Return {| content := [ {| type := "text";
                                  text := "Error in brave_web_search: " ++ message |} ];
                  isError := Some true |}, w'))
  /\ (forall (this : SseHandler) (request : Request.t) (env : value)
             (props : list (string * value)),
        is_post request props ->
        lookup props "method" = VStr "call_tool" ->
        lookup props "params" = call_tool_params "brave_web_search" search_arguments ->
        exists response : Response.t,
          fst (fetch (platform := sample_platform) this request env sample_world) =
            Return response
          /\ Response.status response = 200).
Proof.
  apply (brave_web_search_contains_upstream_failure (platform := sample_platform)
           search_arguments search_args sample_world).
  - reflexivity.
  - reflexivity.
Defined.

(** The event stream at a GET. *)
Lemma get_opens_event_stream_witness :
  exists s0 : Stream,
    fst (fetch (platform := sample_platform) sample_handler
           (sample_request "GET" VNull) VNull sample_world) =
      Return {| Response.status := 200;
                Response.headers := [ ("Content-Type", "text/event-stream");
                                      ("Cache-Control", "no-cache");
                                      ("Connection", "keep-alive") ];
                Response.body := BodyStream s0 |}
    /\ (forall events : list StreamEvent,
          enqueued (run events s0) =
            (0, connected_chunk) :: heartbeats (ticks_before_abort events))
    /\ connected_chunk = frame "connected" (serverId_json "cloudflare-mcp-server")
    /\ "cloudflare-mcp-server" <> ""
    /\ heartbeat_chunk = frame "heartbeat" "{}"
    /\ (forall before after : list StreamEvent,
          enqueued (run (before ++ AbortEvent :: after) s0) = enqueued (run before s0)).
Proof.
  apply (get_opens_event_stream (platform := sample_platform)
           sample_handler (sample_request "GET" VNull) VNull sample_world).
  reflexivity.
Defined.

(** C7 at brave_web_search with the query "cats", upstream answering 503. *)
Lemma every_tool_result_has_one_block_witness :
  exists (r : ToolResult) (w' : World),
    brave_web_search_handler (platform := sample_platform) search_args sample_world =
      (Return r, w')
    /\ List.length (content r) = 1%nat.
Proof.
  apply (every_tool_result_has_one_block (platform := sample_platform)
           "brave_web_search"
           {| description := "Search the web using Brave Search";
              inputSchema := WebSearchSchema;
              handler := brave_web_search_handler |}
           search_arguments search_args sample_world).
  - do 5 right. left. reflexivity.
  - reflexivity.
Defined.

(** * The further properties at concrete inputs *)

(** X2 at a body that is no JSON. *)
Lemma unreadable_body_is_internal_error_witness :
  fst (fetch (platform := sample_platform) sample_handler unreadable_request VNull
         sample_world) =
    Return (json_response 500 (error_body InternalError "Unexpected end of JSON input"))
  /\ ErrorCode_value InternalError = -32603
  /\ trace_of (fetch (platform := sample_platform) sample_handler unreadable_request
                 VNull) sample_world = [].
Proof.
  apply (unreadable_body_is_internal_error (platform := sample_platform)
           sample_handler unreadable_request VNull sample_world
           "Unexpected end of JSON input").
  - reflexivity.
  - reflexivity.
Defined.

(** X3 at the body null. *)
Lemma null_body_is_internal_error_witness :
  fst (fetch (platform := sample_platform) sample_handler (sample_request "POST" VNull)
         VNull sample_world) =
    Return (json_response 500
              (error_body InternalError
                 "Cannot read properties of null (reading 'method')"))
  /\ trace_of (fetch (platform := sample_platform) sample_handler
                 (sample_request "POST" VNull) VNull) sample_world = [].
Proof.
  apply (null_body_is_internal_error (platform := sample_platform)
           sample_handler (sample_request "POST" VNull) VNull sample_world).
  - reflexivity.
  - reflexivity.
Defined.

(** X4 at the method ["list_tools"], an array. *)
Lemma non_string_method_is_never_routed_witness :
  (exists response : Response.t,
     fst (fetch (platform := sample_platform) sample_handler
            (sample_request "POST" (VObj [ ("method", VArr [VStr "list_tools"]) ]))
            VNull sample_world) = Return response
     /\ Response.status response = 500)
  /\ (forall rendering : string,
        ToString (platform := sample_platform) (VArr [VStr "list_tools"])
        = Return rendering ->
        fst (fetch (platform := sample_platform) sample_handler
               (sample_request "POST" (VObj [ ("method", VArr [VStr "list_tools"]) ]))
               VNull sample_world) =
          Return (json_response 500
                    (error_body MethodNotFound ("Unknown method: " ++ rendering))))
  /\ trace_of (fetch (platform := sample_platform) sample_handler
                 (sample_request "POST" (VObj [ ("method", VArr [VStr "list_tools"]) ]))
                 VNull) sample_world = [].
Proof.
  apply (non_string_method_is_never_routed (platform := sample_platform)
           sample_handler _ VNull sample_world
           (VObj [ ("method", VArr [VStr "list_tools"]) ]) (VArr [VStr "list_tools"])).
  - reflexivity.
  - reflexivity.
  - reflexivity.
  - intros s H. discriminate H.
Defined.

(** X5 at a list_tools request. *)
Lemma post_succeeds_iff_routed_witness :
  (exists response : Response.t,
     fst (fetch (platform := sample_platform) sample_handler
            (sample_request "POST" (VObj [ ("method", VStr "list_tools") ]))
            VNull sample_world) = Return response
     /\ Response.status response = 200)
  <-> (exists (props : list (string * value)) (m : string) (schema : RequestSchema),
         Request.json (sample_request "POST" (VObj [ ("method", VStr "list_tools") ]))
         = Return (VObj props)
         /\ lookup props "method" = VStr m
         /\ In (m, schema) routed).
Proof.
  apply (post_succeeds_iff_routed (platform := sample_platform)
           sample_handler
           (sample_request "POST" (VObj [ ("method", VStr "list_tools") ]))
           VNull sample_world).
  reflexivity.
Defined.

(** X7 in a scope with all three variables. *)
Lemma createBraveSearchTools_stores_the_key_witness :
  fst (createBraveSearchTools (platform := sample_platform) configured_world)
  = Return (brave_tools (platform := sample_platform))
  /\ header (apiHeaders (snd (createBraveSearchTools (platform := sample_platform)
                                configured_world)))
       "X-Subscription-Token" = Some "brave-key"
  /\ (forall name : string,
        name <> "X-Subscription-Token" ->
        header (apiHeaders (snd (createBraveSearchTools (platform := sample_platform)
                                   configured_world))) name
        = header (apiHeaders configured_world) name)
  /\ trace_of (createBraveSearchTools (platform := sample_platform)) configured_world
     = [].
Proof.
  apply (createBraveSearchTools_stores_the_key (platform := sample_platform)
           configured_world configured_scope "brave-key").
  - reflexivity.
  - reflexivity.
Defined.

(** X8 at brave_news_search. *)
Lemma brave_handlers_send_the_key_witness :
  exists request : HttpRequest,
    trace_of (bind (createBraveSearchTools (platform := sample_platform))
                (fun _ => brave_news_search_handler (platform := sample_platform)
                            news_args))
      configured_world
    = [CallToolHandler "brave_news_search"; CallFetch request]
    /\ http_method request = "GET"
    /\ header (http_headers request) "X-Subscription-Token" = Some "brave-key".
Proof.
  apply (brave_handlers_send_the_key (platform := sample_platform)
           "brave_news_search"
           {| description := "Search for news articles using Brave Search";
              inputSchema := NewsSearchSchema;
              handler := brave_news_search_handler (platform := sample_platform) |}
           news_args configured_world configured_scope "brave-key").
  - right. left. reflexivity.
  - reflexivity.
  - reflexivity.
Defined.

(** X9 in a scope with all three variables. *)
Lemma createSupabaseTools_configures_witness :
  fst (createSupabaseTools (platform := sample_platform) configured_world)
  = Return (supabase_tools (platform := sample_platform))
  /\ SUPABASE_URL (snd (createSupabaseTools (platform := sample_platform)
                          configured_world)) = "https://abcd.supabase.co"
  /\ SUPABASE_API_KEY (snd (createSupabaseTools (platform := sample_platform)
                              configured_world)) = "service-key"
  /\ apiHeaders (snd (createSupabaseTools (platform := sample_platform)
                        configured_world)) = apiHeaders configured_world
  /\ trace_of (createSupabaseTools (platform := sample_platform)) configured_world = [].
Proof.
  apply (createSupabaseTools_configures (platform := sample_platform)
           configured_world configured_scope "abcd" "service-key").
  - reflexivity.
  - reflexivity.
  - reflexivity.
Defined.

(** X10 in a scope with the project but no service-role key. *)
Lemma createSupabaseTools_needs_both_variables_witness :
  createSupabaseTools (platform := sample_platform) half_configured_world
  = (Return (supabase_tools (platform := sample_platform)), half_configured_world).
Proof.
  apply (createSupabaseTools_needs_both_variables (platform := sample_platform)
           half_configured_world).
  right. exists half_configured_scope. split.
  - reflexivity.
  - right. reflexivity.
Defined.

(** X11 at brave_web_search with the query "cats". *)
Lemma brave_handlers_envelope_witness :
  exists request : HttpRequest,
    trace_of (brave_web_search_handler (platform := sample_platform) full_search_args) sample_world
    = [CallToolHandler "brave_web_search"; CallFetch request]
    /\ (forall e : thrown,
          network sample_world request = Throw e ->
          fst (brave_web_search_handler (platform := sample_platform) full_search_args sample_world) =
            Return (failure_result "brave_web_search" (message_or_String e)))
    /\ (forall response : UpstreamResponse,
          network sample_world request = Return response ->
          ok response = false ->
          fst (brave_web_search_handler (platform := sample_platform) full_search_args sample_world) =
            Return (failure_result "brave_web_search"
                      ("Brave Search API error: " ++ status_line response)))
    /\ (forall (response : UpstreamResponse) (e : thrown),
          network sample_world request = Return response ->
          ok response = true ->
          json response = Throw e ->
          fst (brave_web_search_handler (platform := sample_platform) full_search_args sample_world) =
            Return (failure_result "brave_web_search" (message_or_String e)))
    /\ (forall (response : UpstreamResponse) (data : value),
          network sample_world request = Return response ->
          ok response = true ->
          json response = Return data ->
          fst (brave_web_search_handler (platform := sample_platform) full_search_args sample_world) =
            Return (success_result (platform := sample_platform) data)).
Proof.
  apply (brave_handlers_envelope (platform := sample_platform)
           "brave_web_search"
           {| description := "Search the web using Brave Search";
              inputSchema := WebSearchSchema;
              handler := brave_web_search_handler (platform := sample_platform) |}
           full_search_arguments full_search_args sample_world).
  - left. reflexivity.
  - reflexivity.
Defined.

(** X12 at supabase_query_table on the table notes. *)
Lemma supabase_handlers_envelope_witness :
  exists request : HttpRequest,
    trace_of (supabase_query_table_handler (platform := sample_platform) query_args) configured_world
    = [CallToolHandler "supabase_query_table"; CallFetch request]
    /\ (forall e : thrown,
          network configured_world request = Throw e ->
          fst (supabase_query_table_handler (platform := sample_platform) query_args configured_world) =
            Return (failure_result "supabase_query_table" (message_or_String e)))
    /\ (forall response : UpstreamResponse,
          network configured_world request = Return response ->
          ok response = false ->
          fst (supabase_query_table_handler (platform := sample_platform) query_args configured_world) =
            Return (failure_result "supabase_query_table"
                      ("Supabase API error: " ++ status_line response)))
    /\ (forall (response : UpstreamResponse) (e : thrown),
          network configured_world request = Return response ->
          ok response = true ->
          json response = Throw e ->
          fst (supabase_query_table_handler (platform := sample_platform) query_args configured_world) =
            Return (failure_result "supabase_query_table" (message_or_String e)))
    /\ (forall (response : UpstreamResponse) (data : value),
          network configured_world request = Return response ->
          ok response = true ->
          json response = Return data ->
          fst (supabase_query_table_handler (platform := sample_platform) query_args configured_world) =
            Return (success_result (platform := sample_platform) data)).
Proof.
  apply (supabase_handlers_envelope (platform := sample_platform)
           "supabase_query_table"
           {| description := "Query a table in Supabase database";
              inputSchema := QueryTableSchema;
              handler := supabase_query_table_handler (platform := sample_platform) |}
           (VObj query_props) query_args configured_world).
  - left. reflexivity.
  - reflexivity.
Defined.

(** X13 at supabase_query_table. *)
Lemma handlers_keep_the_module_state_witness :
  same_module_state configured_world
    (snd (supabase_query_table_handler (platform := sample_platform) query_args
            configured_world)).
Proof.
  apply (handlers_keep_the_module_state (platform := sample_platform)
           "supabase_query_table"
           {| description := "Query a table in Supabase database";
              inputSchema := QueryTableSchema;
              handler := supabase_query_table_handler (platform := sample_platform) |}
           query_args configured_world).
  do 8 right. left. reflexivity.
Defined.

(** X14 at puppeteer_type. *)
Lemma puppeteer_handlers_are_pure_witness :
  exists r : ToolResult,
    isError r = None
    /\ forall w : World,
         puppeteer_type_handler
           {| TypeText.selector := "#name"; TypeText.text := "Ada" |} w
         = (Return r, snd (record (CallToolHandler "puppeteer_type") w)).
Proof.
  apply (puppeteer_handlers_are_pure (platform := sample_platform)
           "puppeteer_type"
           {| description := "Type text into an input field";
              inputSchema := TypeSchema;
              handler := puppeteer_type_handler |}
           {| TypeText.selector := "#name"; TypeText.text := "Ada" |}).
  do 4 right. left. reflexivity.
Defined.

(** X15 at the empty selector. *)
Lemma screenshot_defaults_to_body_witness :
  fst (puppeteer_screenshot_handler
         {| Screenshot.selector := Some "" |} sample_world) =
    Return {| content := [ {| type := "text";
                              text := "Screenshot taken of selector: body" |} ];
              isError := None |}.
Proof.
  apply (screenshot_defaults_to_body
           {| Screenshot.selector := Some "" |} sample_world).
  right. reflexivity.
Defined.

(** X16 at a search for "cats" with count 5, country US, safesearch off. *)
Lemma WebSearchSchema_bounds_witness :
  (exists props : list (string * value),
     full_search_arguments = VObj props
     /\ lookup props "query" = VStr (WebSearch.query full_search_args))
  /\ WebSearch.query full_search_args <> ""
  /\ (forall n : Z, WebSearch.count full_search_args = Some n -> 1 <= n <= 20)
  /\ (forall c : string,
        WebSearch.country full_search_args = Some c -> String.length c = 2%nat)
  /\ (forall s : string,
        WebSearch.safesearch full_search_args = Some s ->
        In s ["strict"; "moderate"; "off"]).
Proof.
  apply (WebSearchSchema_bounds
           full_search_arguments full_search_args).
  reflexivity.
Defined.

(** X17 at a query of the table notes with limit 5 and no select. *)
Lemma QueryTableSchema_bounds_witness :
  QueryTable.table query_args <> ""
  /\ (forall n : Z, QueryTable.limit query_args = Some n -> 1 <= n <= 1000)
  /\ (lookup query_props "select" = VUndefined -> QueryTable.select query_args = "*").
Proof.
  apply (QueryTableSchema_bounds query_props query_args).
  reflexivity.
Defined.

(** X18 at puppeteer_screenshot with no arguments. *)
Lemma schemas_reject_non_objects_witness :
  ScreenshotSchema VUndefined = None.
Proof.
  apply (schemas_reject_non_objects (platform := sample_platform)
           "puppeteer_screenshot"
           {| description := "Take a screenshot of the current page or a specific element";
              inputSchema := ScreenshotSchema;
              handler := puppeteer_screenshot_handler |}
           VUndefined).
  - right. left. reflexivity.
  - intros props H. discriminate H.
Defined.

(** X19 at the deletion of note 1. *)
Lemma delete_is_always_filtered_witness :
  exists request : HttpRequest,
    trace_of (supabase_delete_rows_handler (platform := sample_platform) delete_args)
      configured_world
    = [CallToolHandler "supabase_delete_rows"; CallFetch request]
    /\ http_method request = "DELETE"
    /\ http_body request = None
    /\ url request = SUPABASE_URL configured_world ++ "/rest/v1/"
                     ++ DeleteRows.table delete_args
                     ++ "?" ++ DeleteRows.filter delete_args
    /\ DeleteRows.table delete_args <> ""
    /\ DeleteRows.filter delete_args <> "".
Proof.
  apply (delete_is_always_filtered (platform := sample_platform)
           delete_arguments delete_args configured_world).
  reflexivity.
Defined.

(** X20 at an update of note 1. *)
Lemma update_is_always_filtered_witness :
  exists request : HttpRequest,
    trace_of (supabase_update_rows_handler (platform := sample_platform) update_args)
      configured_world
    = [CallToolHandler "supabase_update_rows"; CallFetch request]
    /\ http_method request = "PATCH"
    /\ http_body request
       = Some (json_stringify (Platform := sample_platform)
                 (VObj (UpdateRows.updates update_args)))
    /\ url request = SUPABASE_URL configured_world ++ "/rest/v1/"
                     ++ UpdateRows.table update_args
                     ++ "?" ++ UpdateRows.filter update_args
    /\ UpdateRows.table update_args <> ""
    /\ UpdateRows.filter update_args <> "".
Proof.
  apply (update_is_always_filtered (platform := sample_platform)
           update_arguments update_args configured_world).
  reflexivity.
Defined.

(** X21 at a call of the function refresh without params. *)
Lemma execute_function_request_witness :
  exists request : HttpRequest,
    trace_of (supabase_execute_function_handler (platform := sample_platform)
                execute_args) configured_world
    = [CallToolHandler "supabase_execute_function"; CallFetch request]
    /\ http_method request = "POST"
    /\ url request = SUPABASE_URL configured_world ++ "/rest/v1/rpc/"
                     ++ ExecuteStoredProcedure.function execute_args
    /\ ExecuteStoredProcedure.function execute_args <> ""
    /\ (ExecuteStoredProcedure.params execute_args = None -> http_body request = None)
    /\ (forall params : list (string * value),
          ExecuteStoredProcedure.params execute_args = Some params ->
          http_body request
          = Some (json_stringify (Platform := sample_platform) (VObj params))).
Proof.
  apply (execute_function_request (platform := sample_platform)
           execute_arguments execute_args configured_world).
  reflexivity.
Defined.

(** X22 at supabase_delete_rows. *)
Lemma supabase_requests_carry_the_credentials_witness :
  exists request : HttpRequest,
    trace_of (supabase_delete_rows_handler (platform := sample_platform) delete_args)
      configured_world
    = [CallToolHandler "supabase_delete_rows"; CallFetch request]
    /\ header (http_headers request) "apikey" = Some (SUPABASE_API_KEY configured_world)
    /\ header (http_headers request) "Authorization"
       = Some ("Bearer " ++ SUPABASE_API_KEY configured_world)
    /\ String.prefix (SUPABASE_URL configured_world ++ "/rest/v1/") (url request) = true.
Proof.
  apply (supabase_requests_carry_the_credentials (platform := sample_platform)
           "supabase_delete_rows"
           {| description := "Delete rows from a Supabase table";
              inputSchema := DeleteRowsSchema;
              handler := supabase_delete_rows_handler (platform := sample_platform) |}
           delete_arguments delete_args configured_world).
  - do 3 right. left. reflexivity.
  - reflexivity.
Defined.
